(** * terabox.js: a shallow embedding of [lib/index.js]

    The client library is sequential request/response glue written in
    JavaScript.  The development below embeds

    - the fragment of the JavaScript runtime the library relies on
      (values, [typeof], truthiness, [||], [===], [Number], [-], [*]),
    - the two functions of [node:path] the library calls,
    - the network as an oracle with an explicit trace of the requests made;
      [JSON.parse] and the evaluation of the server-supplied signing
      function belong to the same oracle,
    - the classes [TeraBox] and [TeraBoxDirent], method by method.

    The definitions used to state the properties follow (sample responses,
    predicates on traces, base64 as RFC 4648 defines it), and then the
    properties themselves with their proofs. *)

From Stdlib Require Import ZArith QArith Qreduction Qcanon Qabs.
From Stdlib Require Import Bool List String Ascii Lia.
From Stdlib Require Strings.Byte.
Import ListNotations.

Local Set Warnings "-register-all".

Local Open Scope string_scope.
Local Open Scope Z_scope.

(** ** The JavaScript runtime fragment *)

Module JS.

(** Numbers.  A finite number is the rational a binary64 value stands
    for, kept in lowest terms.  Every arithmetic result and every numeric
    literal read from a string goes through [binary64], which rounds to
    the nearest double, ties to even, and overflows to an infinity.  The
    sign of zero is not modelled: the library never divides, and nothing
    else it does tells [-0] from [0]. *)
Inductive number : Type :=
| NaN
| Infinity (negative : bool)
| Fin (q : Q).

(** An integer as a number.  It stands for a JavaScript number only when
    the integer is a double; every integer up to [2^53] in absolute value
    is one. *)
Definition of_Z (z : Z) : number := Fin (inject_Z z).

(** The integer nearest to [n / d], for [0 <= n] and [0 < d]; halfway
    cases go to the even neighbour. *)
Definition nearest_even (n d : Z) : Z :=
  let q := n / d in
  let r := n mod d in
  if 2 * r <? d then q
  else if d <? 2 * r then q + 1
  else if Z.even q then q else q + 1.

(** [2^l <= n / d] *)
Definition at_least_pow2 (n d l : Z) : bool :=
  if 0 <=? l then d * 2 ^ l <=? n else d <=? n * 2 ^ (- l).

(** The double nearest to a rational.  With [2^x <= |q| < 2^(x+1)] the
    significand is [|q| / 2^(x-52)] rounded to an integer, except that the
    exponent stops at [-1074] (subnormal numbers); a rounded magnitude of
    [2^1024] or more is infinite. *)
Definition binary64 (q : Q) : number :=
  let n := Z.abs (Qnum q) in
  let d := Zpos (Qden q) in
  if n =? 0 then Fin 0
  else
    let l := Z.log2 n - Z.log2 d in
    let x := if at_least_pow2 n d l then l else l - 1 in
    let e := Z.max (x - 52) (-1074) in
    let m := if 0 <=? e then nearest_even n (d * 2 ^ e)
             else nearest_even (n * 2 ^ (- e)) d in
    if (971 <? e) || ((e =? 971) && (2 ^ 53 <=? m)) then Infinity (Qnum q <? 0)
    else
      let s := if Qnum q <? 0 then - m else m in
      if 0 <=? e then Fin (inject_Z (s * 2 ^ e))
      else Fin (Qred (Qmake s (Z.to_pos (2 ^ (- e))))).

(** Plain values: what [JSON.parse] produces, plus [undefined]. An object
    is the list of its own enumerable properties, in [Object.entries]
    order; a property read takes the first entry with the key. *)
Inductive value : Type :=
| Undefined
| Null
| Bool (b : bool)
| Num (n : number)
| Str (s : string)
| Arr (items : list value)
| Obj (props : list (string * value)).

Definition typeof (v : value) : string :=
  match v with
  | Undefined => "undefined"
  | Null => "object"
  | Bool _ => "boolean"
  | Num _ => "number"
  | Str _ => "string"
  | Arr _ => "object"
  | Obj _ => "object"
  end.

Definition is_zero (q : Q) : bool := Qeq_bool q 0.

(** [ToBoolean]: [undefined], [null], [false], [0], [NaN] and [''] are
    falsy, everything else is truthy. *)
Definition ToBoolean (v : value) : bool :=
  match v with
  | Undefined | Null => false
  | Bool b => b
  | Num NaN => false
  | Num (Infinity _) => true
  | Num (Fin q) => negb (is_zero q)
  | Str s => negb (String.eqb s "")
  | Arr _ | Obj _ => true
  end.

(** [a || b] *)
Definition or (a b : value) : value := if ToBoolean a then a else b.

(** [!a] *)
Definition not (a : value) : bool := negb (ToBoolean a).

Definition number_eqb (a b : number) : bool :=
  match a, b with
  | Fin p, Fin q => Qeq_bool p q
  | Infinity s, Infinity t => Bool.eqb s t
  | _, _ => false
  end.

(** [v === 0], the only strict comparison the library makes. *)
Definition is_strictly_0 (v : value) : bool :=
  match v with
  | Num n => number_eqb n (of_Z 0)
  | _ => false
  end.

Fixpoint lookup (k : string) (props : list (string * value)) : value :=
  match props with
  | [] => Undefined
  | (k', v) :: rest => if String.eqb k k' then v else lookup k rest
  end.

(** [v.k] for a [v] that is neither [undefined] nor [null].  Of the
    built-in properties only [length] is ever read by the library. *)
Definition get (v : value) (k : string) : value :=
  match v with
  | Obj props => lookup k props
  | Arr items => if String.eqb k "length" then Num (of_Z (Z.of_nat (List.length items))) else Undefined
  | Str s => if String.eqb k "length" then Num (of_Z (Z.of_nat (String.length s))) else Undefined
  | _ => Undefined
  end.

Definition is_nullish (v : value) : bool :=
  match v with
  | Undefined | Null => true
  | _ => false
  end.

(** *** Arithmetic *)

Definition number_sub (a b : number) : number :=
  match a, b with
  | NaN, _ | _, NaN => NaN
  | Infinity s, Infinity t => if Bool.eqb s t then NaN else Infinity s
  | Infinity s, Fin _ => Infinity s
  | Fin _, Infinity t => Infinity (negb t)
  | Fin p, Fin q => binary64 (p - q)
  end.

Definition is_negative (q : Q) : bool := (Qnum q <? 0)%Z.

Definition number_mul (a b : number) : number :=
  match a, b with
  | NaN, _ | _, NaN => NaN
  | Infinity s, Infinity t => Infinity (xorb s t)
  | Infinity s, Fin q | Fin q, Infinity s =>
      if is_zero q then NaN else Infinity (xorb s (is_negative q))
  | Fin p, Fin q => binary64 (p * q)
  end.

Definition number_ltb (a b : number) : bool :=
  match a, b with
  | NaN, _ | _, NaN => false
  | Infinity s, Infinity t => s && negb t
  | Infinity s, Fin _ => s
  | Fin _, Infinity t => negb t
  | Fin p, Fin q => negb (Qle_bool q p)
  end.

(** *** [Number(string)]: the StringNumericLiteral grammar *)

Definition is_StrWhiteSpaceChar (c : ascii) : bool :=
  let n := nat_of_ascii c in
  ((9 <=? n) && (n <=? 13) || (n =? 32) || (n =? 160))%nat.

Fixpoint trim_start (cs : list ascii) : list ascii :=
  match cs with
  | c :: cs' => if is_StrWhiteSpaceChar c then trim_start cs' else cs
  | [] => []
  end.

Definition trim (cs : list ascii) : list ascii :=
  rev (trim_start (rev (trim_start cs))).

Definition digit_of (base : Z) (c : ascii) : option Z :=
  let n := Z.of_nat (nat_of_ascii c) in
  let d := if (48 <=? n) && (n <=? 57) then n - 48
           else if (97 <=? n) && (n <=? 102) then n - 87
           else if (65 <=? n) && (n <=? 70) then n - 55
           else base in
  if d <? base then Some d else None.

(** Reads the longest prefix of digits: the value read (continuing [acc]),
    how many digits were read, and what is left. *)
Fixpoint digits (base acc : Z) (count : nat) (cs : list ascii)
  : Z * nat * list ascii :=
  match cs with
  | c :: cs' =>
      match digit_of base c with
      | Some d => digits base (acc * base + d) (S count) cs'
      | None => (acc, count, cs)
      end
  | [] => (acc, count, [])
  end.

Definition radix_of_prefix (c : ascii) : option Z :=
  if (Ascii.eqb c "x" || Ascii.eqb c "X")%char then Some 16
  else if (Ascii.eqb c "o" || Ascii.eqb c "O")%char then Some 8
  else if (Ascii.eqb c "b" || Ascii.eqb c "B")%char then Some 2
  else None.

Definition NonDecimalIntegerLiteral (cs : list ascii) : option Z :=
  match cs with
  | c :: p :: ds =>
      if Ascii.eqb c "0" then
        match radix_of_prefix p with
        | Some base =>
            match digits base 0 0 ds with
            | (z, S _, []) => Some z
            | _ => None
            end
        | None => None
        end
      else None
  | _ => None
  end.

Definition split_sign (cs : list ascii) : bool * list ascii :=
  match cs with
  | c :: r =>
      if Ascii.eqb c "+" then (false, r)
      else if Ascii.eqb c "-" then (true, r)
      else (false, cs)
  | [] => (false, cs)
  end.

(** What follows the [e] of an exponent part. *)
Definition ExponentPart (cs : list ascii) : option Z :=
  let (neg, ds) := split_sign cs in
  match digits 10 0 0 ds with
  | (z, S _, []) => Some (if neg then - z else z)
  | _ => None
  end.

(** [m * 10^k] *)
Definition scale10 (m k : Z) : Q :=
  if 0 <=? k then inject_Z (m * 10 ^ k)
  else Qred (Qmake m (Z.to_pos (10 ^ (- k)))).

Definition StrUnsignedDecimalLiteral (cs : list ascii) : option Q :=
  let '(i, ni, r1) := digits 10 0 0 cs in
  let '(m, nf, r2) :=
    match r1 with
    | c :: r => if Ascii.eqb c "." then digits 10 i 0 r else (i, 0%nat, r1)
    | [] => (i, 0%nat, r1)
    end in
  if (ni + nf =? 0)%nat then None
  else
    let e :=
      match r2 with
      | [] => Some 0
      | c :: r => if (Ascii.eqb c "e" || Ascii.eqb c "E")%char then ExponentPart r else None
      end in
    match e with
    | Some e => Some (scale10 m (e - Z.of_nat nf))
    | None => None
    end.

Definition StringToNumber (s : string) : number :=
  let cs := trim (list_ascii_of_string s) in
  match cs with
  | [] => of_Z 0
  | _ =>
      match NonDecimalIntegerLiteral cs with
      | Some z => binary64 (inject_Z z)
      | None =>
          let (neg, u) := split_sign cs in
          if String.eqb (string_of_list_ascii u) "Infinity" then Infinity neg
          else
            match StrUnsignedDecimalLiteral u with
            | Some q => binary64 (if neg then - q else q)
            | None => NaN
            end
      end
  end.

(** *** [ToNumber]

    An array converts through its string form: [[]] is [''], a
    one-element array is its element's string, and anything longer has a
    comma in it, which no numeric literal has.  A number printed and read
    back is itself. *)
Fixpoint ToNumber (v : value) : number :=
  match v with
  | Undefined => NaN
  | Null => of_Z 0
  | Bool b => of_Z (if b then 1 else 0)
  | Num n => n
  | Str s => StringToNumber s
  | Arr [] => of_Z 0
  | Arr [x] =>
      match x with
      | Undefined | Null => of_Z 0
      | Bool _ | Obj _ => NaN
      | Num _ | Str _ | Arr _ => ToNumber x
      end
  | Arr _ => NaN
  | Obj _ => NaN
  end.

(** [a - b] and [a * b] *)
Definition sub (a b : value) : number := number_sub (ToNumber a) (ToNumber b).
Definition mul (a b : value) : number := number_mul (ToNumber a) (ToNumber b).

(** [a < b], for operands that are not both strings *)
Definition lt (a b : value) : bool := number_ltb (ToNumber a) (ToNumber b).

(** [Number(v)] *)
Definition Number (v : value) : number := ToNumber v.

(** The decimal rendering of an integer, as [String(n)] prints it. *)
Definition digit_char (d : Z) : ascii := ascii_of_nat (Z.to_nat (48 + d)).

Fixpoint decimal_digits (fuel : nat) (n : Z) (acc : list ascii) : list ascii :=
  match fuel with
  | O => acc
  | S fuel' =>
      let acc' := digit_char (n mod 10) :: acc in
      if n <? 10 then acc' else decimal_digits fuel' (n / 10) acc'
  end.

Definition decimal (n : Z) : string :=
  let ds := decimal_digits (S (Z.to_nat (Z.log2 (Z.abs n)))) (Z.abs n) [] in
  string_of_list_ascii (if n <? 0 then "-"%char :: ds else ds).

End JS.

(** ** Strings *)

Definition charCode (c : ascii) : Z := Z.of_nat (nat_of_ascii c).

(** The code units of a string, as [charCodeAt] reads them. *)
Definition charCodes (s : string) : list Z := map charCode (list_ascii_of_string s).

(** [s.startsWith(p)] and [s.endsWith(p)] *)
Definition startsWith (s p : string) : bool := String.prefix p s.

Definition endsWith (s p : string) : bool :=
  let n := String.length s in
  let k := String.length p in
  (k <=? n)%nat && String.eqb (String.substring (n - k) k s) p.

(** [s.slice(from, to)] for [0 <= from] and [0 <= to] within the string *)
Definition slice (s : string) (from to : nat) : string :=
  String.substring from (to - from) s.

(** ** [node:path], POSIX flavour

    The library calls [path.dirname] and [path.basename] (with one
    argument).  They are Node's, not the library's; both scan the string
    from its last character down. *)

Module Path.

Definition CHAR_FORWARD_SLASH : Z := 47.

Definition is_slash_at (p : string) (i : nat) : bool :=
  match String.get i p with
  | Some c => charCode c =? CHAR_FORWARD_SLASH
  | None => false
  end.

(** The loop of [dirname], for [i] down to [1]: the value of [end] when it
    was set, [None] for the initial [-1]. *)
Fixpoint dirname_loop (p : string) (i : nat) (matchedSlash : bool) : option nat :=
  match i with
  | O => None
  | S i' =>
      if is_slash_at p i then
        if negb matchedSlash then Some i
        else dirname_loop p i' matchedSlash
      else dirname_loop p i' false
  end.

Definition dirname (p : string) : string :=
  if (String.length p =? 0)%nat then "."
  else
    let hasRoot := is_slash_at p 0 in
    match dirname_loop p (String.length p - 1) true with
    | None => if hasRoot then "/" else "."
    | Some e => if hasRoot && (e =? 1)%nat then "//" else slice p 0 e
    end.

(** The loop of [basename], for [i = k - 1] down to [0]: the final
    [(start, end)]. *)
Fixpoint basename_loop (p : string) (k : nat) (matchedSlash : bool)
    (end_ : option nat) : nat * option nat :=
  match k with
  | O => (0%nat, end_)
  | S i =>
      if is_slash_at p i then
        if negb matchedSlash then ((i + 1)%nat, end_)
        else basename_loop p i matchedSlash end_
      else
        match end_ with
        | None => basename_loop p i false (Some (i + 1)%nat)
        | Some _ => basename_loop p i matchedSlash end_
        end
  end.

Definition basename (p : string) : string :=
  match basename_loop p (String.length p) true None with
  | (_, None) => ""
  | (start, Some e) => slice p start e
  end.

End Path.

Import JS.

(** ** Errors

    Everything the library throws is a plain [Error] told apart by its
    message.  The constructors below are the message shapes of the source;
    [TypeError] and the two rejections come from the runtime. *)

Inductive Error : Type :=
| ERR_INVALID_ARG_TYPE (name expected received : string)
    (** [TypeError [ERR_INVALID_ARG_TYPE]: The "name" ... must be ... expected. Received received] *)
| ERR_API (errno errmsg : value)
    (** [[ERR_API] ${errno} ${errmsg || ''}] *)
| ERR_API_Unable (what : string)
    (** [[ERR_API] Unable to what] *)
| TypeError (message : string)
| FetchRejected
| SyntaxError.

Inductive Result (A : Type) : Type :=
| Ok (a : A)
| Throw (e : Error).
Arguments Ok {A} a.
Arguments Throw {A} e.

Definition is_Ok {A} (r : Result A) : bool :=
  match r with Ok _ => true | Throw _ => false end.

(** [path.dirname(v)] and [path.basename(v)] validate that [v] is a string. *)
Definition path_dirname (v : value) : Result string :=
  match v with
  | Str p => Ok (Path.dirname p)
  | _ => Throw (ERR_INVALID_ARG_TYPE "path" "string" (typeof v))
  end.

Definition path_basename (v : value) : Result string :=
  match v with
  | Str p => Ok (Path.basename p)
  | _ => Throw (ERR_INVALID_ARG_TYPE "path" "string" (typeof v))
  end.

(** ** The credential bundle and the client constructor *)

Module Credentials.
Record t : Type := mk {
  ndus : value;
  lang : value;
  appId : value;
  browserId : value;
  host : value;
  blockId : value;
  (** the three values interpolated into
      [browserid=${...}; lang=${...}; ndus=${...}] *)
  cookies : value * value * value;
  userAgent : value;
  jsToken : value
}.
End Credentials.

Module Defaults.
Definition lang : string := "en".
Definition appId : string := "250528".
Definition host : string := "https://terabox.com".
Definition blockId : string := "5910a591dd8fc18c32a8f3df4fdc1761".
Definition userAgent : string :=
  String.append
    "Mozilla/5.0 (Windows NT 10.0; Win64; x64) AppleWebKit/537.36 (KHTML, like Gecko) Chrome/137.0.0.0 Safari/537.36"
    (String (ascii_of_nat 34) EmptyString).
Definition jsToken : string :=
  "0C911FEECAF128F69DC7400B26711AC301F4B35A0C14C794D9C3E9DB91F8935326E23BAE805D10167B33F36BB255375DE0B23AFCC96C61D1092BB647E7901C2C".
End Defaults.

(** [credentials?.ndus] *)
Definition optional_get (v : value) (k : string) : value :=
  if is_nullish v then Undefined else get v k.

(** A [TeraBox] instance is its private [#credentials]. *)
Definition TeraBox : Type := Credentials.t.

(** [new TeraBox(credentials)] *)
Definition TeraBox_constructor (credentials : value) : Result TeraBox :=
  if JS.not credentials
     || JS.not (get credentials "ndus")
     || negb (String.eqb (typeof (get credentials "ndus")) "string")
  then
    Throw (ERR_INVALID_ARG_TYPE "credentials.ndus" "string"
             (typeof (optional_get credentials "ndus")))
  else
    Ok {|
      Credentials.ndus := get credentials "ndus";
      Credentials.lang := JS.or (get credentials "lang") (Str Defaults.lang);
      Credentials.appId := JS.or (get credentials "appId") (Str Defaults.appId);
      Credentials.browserId := get credentials "browserId";
      Credentials.host := JS.or (get credentials "host") (Str Defaults.host);
      Credentials.blockId := JS.or (get credentials "blockId") (Str Defaults.blockId);
      Credentials.cookies :=
        (get credentials "browserId", get credentials "lang", get credentials "ndus");
      Credentials.userAgent := JS.or (get credentials "userAgent") (Str Defaults.userAgent);
      Credentials.jsToken := JS.or (get credentials "jsToken") (Str Defaults.jsToken)
    |}.

(** ** Directory entries *)

(** [new Date(ms)] is determined by its time value, [TimeClip(ms)]: an
    integral number of milliseconds within 8.64e15 of the epoch, or [NaN]
    for an invalid date. *)
Definition truncate (q : Q) : Z := Z.quot (Qnum q) (Zpos (Qden q)).

Definition TimeClip (ms : number) : number :=
  match ms with
  | Fin q =>
      if Qle_bool (Qabs q) (inject_Z 8640000000000000)
      then of_Z (truncate q) else NaN
  | _ => NaN
  end.

Inductive Date : Type := Date_of (timeValue : number).

Definition new_Date (ms : number) : Date := Date_of (TimeClip ms).

Module TeraBoxDirent.

(** The public fields and the two private ones, [#client] and
    [#isDirectory].  [path] is typed as a string: the constructor hands
    [data.path] to [path.dirname], which rejects anything else, so no entry
    exists whose path is not one.  Only the constructor assigns to a
    field; every method below is therefore a function of the entry and
    gives no new entry back. *)
Record t : Type := mk {
  id : value;
  size : value;
  name : value;
  path : string;
  parentPath : string;
  atimeMs : number;
  ctimeMs : number;
  mtimeMs : number;
  birthtimeMs : number;
  client : TeraBox;
  _isDirectory : bool
}.

(** [new TeraBoxDirent(data, client)] *)
Definition constructor (data : value) (client : TeraBox) : Result t :=
  if is_nullish data then
    Throw (TypeError "Cannot read properties of undefined (reading 'fs_id')")
  else
    match get data "path" with
    | Str p =>
        Ok {|
          id := get data "fs_id";
          size := JS.or (get data "size") (Num (of_Z 0));
          name := get data "server_filename";
          path := p;
          parentPath := Path.dirname p;
          atimeMs := JS.mul (JS.or (get data "server_atime") (get data "atime")) (Num (of_Z 1000));
          ctimeMs := JS.mul (JS.or (get data "server_ctime") (get data "ctime")) (Num (of_Z 1000));
          mtimeMs := JS.mul (JS.or (get data "server_mtime") (get data "mtime")) (Num (of_Z 1000));
          birthtimeMs := JS.mul (JS.or (get data "server_ctime") (get data "ctime")) (Num (of_Z 1000));
          client := client;
          _isDirectory := negb (JS.not (get data "isdir"))
        |}
    | other => Throw (ERR_INVALID_ARG_TYPE "path" "string" (typeof other))
    end.

Definition isFile (this : t) : bool := negb (_isDirectory this).
Definition isDirectory (this : t) : bool := _isDirectory this.

Definition atime (this : t) : Date := new_Date (atimeMs this).
Definition ctime (this : t) : Date := new_Date (ctimeMs this).
Definition mtime (this : t) : Date := new_Date (mtimeMs this).
Definition birthtime (this : t) : Date := new_Date (birthtimeMs this).

End TeraBoxDirent.

(** ** The network

    Every call site of [fetch] in the source is one constructor of
    [Request], carrying the client (whose host, application id, access
    token, cookies and user agent go into the URL and the headers) and the
    values interpolated into the URL or the body. *)

Definition Buffer : Type := list Byte.byte.

(** One element of the [filelist] of a move: [{path, dest, newname}] *)
Module MoveEntry.
Record t : Type := mk {
  path : string;
  dest : string;
  newname : string
}.
End MoveEntry.

Inductive Request : Type :=
| POST_quota (c : TeraBox)
| POST_list (c : TeraBox) (dir : value)
| POST_precreate (c : TeraBox) (path_ target_path : string) (size : Z) (local_mtime : Z)
| POST_superfile2 (c : TeraBox) (path_ : string) (uploadid : value)
    (file : Buffer) (filename : string)
| POST_create (c : TeraBox) (path_ : string) (size : Z) (uploadid : value)
    (target_path : string) (block_list : value) (local_mtime : Z)
| POST_download (c : TeraBox) (fidlist : list value) (sign timestamp : value)
| POST_filemanager_move (c : TeraBox) (filelist : list MoveEntry.t)
| POST_filemanager_delete (c : TeraBox) (filelist : list string)
| POST_streaming (c : TeraBox) (path_ : string) (type : value)
| POST_home_info (c : TeraBox).

(** What came back for a request: the body text, or [None] when [fetch]
    rejected. *)
Definition Event : Type := Request * option string.

(** The requests made so far, oldest first. *)
Definition Trace : Type := list Event.

(** The environment of a run: the upstream server, the clock, the
    runtime's [JSON.parse] ([None]: it throws), and what evaluating the
    server-supplied [sign2] function on [(sign3, sign1)] gives. *)
Record World : Type := mkWorld {
  respond : Trace -> Request -> option string;
  Date_now : Trace -> Z;
  JSON_parse : string -> option value;
  call_sign2 : value -> value -> value -> Result value
}.

(** ** The monad of asynchronous methods: environment, trace, exceptions *)

Definition M (A : Type) : Type := World -> Trace -> Result A * Trace.

Definition ret {A} (a : A) : M A := fun _ tr => (Ok a, tr).

Definition throw {A} (e : Error) : M A := fun _ tr => (Throw e, tr).

Definition bind {A B} (m : M A) (k : A -> M B) : M B :=
  fun w tr =>
    match m w tr with
    | (Ok a, tr') => k a w tr'
    | (Throw e, tr') => (Throw e, tr')
    end.

(** [try { m } catch { h }] *)
Definition try_catch {A} (m : M A) (h : Error -> M A) : M A :=
  fun w tr =>
    match m w tr with
    | (Ok a, tr') => (Ok a, tr')
    | (Throw e, tr') => h e w tr'
    end.

Definition lift {A} (r : Result A) : M A := fun _ tr => (r, tr).

Notation "'let*' x ':=' m 'in' k" := (bind m (fun x => k))
  (at level 10, x name, m at level 100, k at level 200).

Definition fetch (req : Request) : M string :=
  fun w tr =>
    let r := respond w tr req in
    (match r with Some body => Ok body | None => Throw FetchRejected end,
     (tr ++ [(req, r)])%list).

(** [JSON.parse(text)], which is also [res.json()] for a body [text] *)
Definition parse (text : string) : M value :=
  fun w tr =>
    (match JSON_parse w text with Some v => Ok v | None => Throw SyntaxError end, tr).

(** [fetch(...).then(res => res.json())] *)
Definition fetch_json (req : Request) : M value :=
  let* body := fetch req in parse body.

(** [Math.floor(Date.now() / 1000)] *)
Definition now_seconds : M Z := fun w tr => (Ok (Date_now w tr / 1000), tr).

(** [v.k], throwing when [v] is [undefined] or [null] *)
Definition prop (v : value) (k : string) : M value :=
  if is_nullish v then
    throw (TypeError ("Cannot read properties of " ++ typeof v ++ " (reading '" ++ k ++ "')"))
  else ret (get v k).

(** [throw new Error(`[ERR_API] ${data.errno} ${data.errmsg || ''}`)] *)
Definition throw_ERR_API {A} (data : value) : M A :=
  throw (ERR_API (get data "errno") (JS.or (get data "errmsg") (Str ""))).

Fixpoint mapM {A B} (f : A -> Result B) (l : list A) : Result (list B) :=
  match l with
  | [] => Ok []
  | a :: l' =>
      match f a with
      | Throw e => Throw e
      | Ok b =>
          match mapM f l' with
          | Throw e => Throw e
          | Ok bs => Ok (b :: bs)
          end
      end
  end.

(** A parameter with a default value *)
Definition default (v d : value) : value :=
  match v with Undefined => d | _ => v end.

(** ** The signature encoder: the function expression inside [#sign] *)

Module Sign.

Definition s : string :=
  "ABCDEFGHIJKLMNOPQRSTUVWXYZabcdefghijklmnopqrstuvwxyz0123456789+/".

(** [str.charAt(k)]: the empty string out of range *)
Definition charAt (str : string) (k : Z) : string :=
  if k <? 0 then ""
  else
    match String.get (Z.to_nat k) str with
    | Some c => String c EmptyString
    | None => ""
    end.

(** [e.charCodeAt(i)] as the encoder uses it, under a bit mask: out of
    range the result is [NaN], which every bitwise operator reads as 0. *)
Definition charCodeAt (e : list Z) (i : nat) : Z := nth i e 0.

(** The [while (i < n)] loop; [fuel] bounds the number of iterations. *)
Fixpoint loop (fuel : nat) (e : list Z) (n i : nat) (t : string) : string :=
  match fuel with
  | O => t
  | S fuel' =>
      if (i <? n)%nat then
        let a := Z.land 255 (charCodeAt e i) in
        let i := S i in
        if (i =? n)%nat then
          let t := t ++ charAt s (Z.shiftr a 2) in
          let t := t ++ charAt s (Z.shiftl (Z.land 3 a) 4) in
          t ++ "=="
        else
          let r := charCodeAt e i in
          let i := S i in
          if (i =? n)%nat then
            let t := t ++ charAt s (Z.shiftr a 2) in
            let t := t ++ charAt s (Z.lor (Z.shiftl (Z.land 3 a) 4) (Z.shiftr (Z.land 240 r) 4)) in
            let t := t ++ charAt s (Z.shiftl (Z.land 15 r) 2) in
            t ++ "="
          else
            let o := charCodeAt e i in
            let i := S i in
            let t := t ++ charAt s (Z.shiftr a 2) in
            let t := t ++ charAt s (Z.lor (Z.shiftl (Z.land 3 a) 4) (Z.shiftr (Z.land 240 r) 4)) in
            let t := t ++ charAt s (Z.lor (Z.shiftl (Z.land 15 r) 2) (Z.shiftr (Z.land 192 o) 6)) in
            let t := t ++ charAt s (Z.land 63 o) in
            loop fuel' e n i t
      else t
  end.

(** The encoder applied to a string given by its code units.  Every
    iteration but the last advances [i] by three, so [length e] iterations
    and the closing test fit in the fuel. *)
Definition encode (e : list Z) : string :=
  loop (S (List.length e)) e (List.length e) 0 "".

(** The encoder applied to whatever the server-supplied function
    returned: without a [length] above zero the loop never runs, and
    only a string has [charCodeAt]. *)
Definition encode_value (e : value) : Result string :=
  match e with
  | Str str => Ok (encode (charCodes str))
  | Undefined | Null =>
      Throw (TypeError "Cannot read properties of undefined (reading 'length')")
  | _ =>
      if JS.lt (Num (of_Z 0)) (get e "length")
      then Throw (TypeError "e.charCodeAt is not a function")
      else Ok ""
  end.

End Sign.

(** ** The client's operations *)

(** [typeof v !== name] *)
Definition typeof_is_not (v : value) (name : string) : bool :=
  negb (String.eqb (typeof v) name).

(** [if (data.errno === 0) ok else throw new Error(`[ERR_API] ...`)] *)
Definition if_errno_0 {A} (data : value) (ok : M A) : M A :=
  let* errno := prop data "errno" in
  if is_strictly_0 errno then ok else throw_ERR_API data.

(** [quota()]: the result object [{used, total, free}] *)
Module Quota.
Record t : Type := mk {
  used : value;
  total : value;
  free : number
}.
End Quota.

Definition TeraBox_quota (this : TeraBox) : M Quota.t :=
  let* data := fetch_json (POST_quota this) in
  if_errno_0 data
    (ret {| Quota.used := get data "used";
            Quota.total := get data "total";
            Quota.free := JS.sub (get data "total") (get data "used") |}).

(** [array.map(f)] on a value that should be an array *)
Definition map_array {B} (name : string) (v : value) (f : value -> Result B) : M (list B) :=
  match v with
  | Arr items => lift (mapM f items)
  | Undefined | Null =>
      throw (TypeError ("Cannot read properties of " ++ typeof v ++ " (reading 'map')"))
  | _ => throw (TypeError (name ++ ".map is not a function"))
  end.

Definition TeraBox_list (this : TeraBox) (directory : value) : M (list TeraBoxDirent.t) :=
  let directory := default directory (Str "/") in
  let* data := fetch_json (POST_list this directory) in
  if_errno_0 data
    (map_array "data.list" (get data "list") (fun i => TeraBoxDirent.constructor i this)).

(** [Buffer.byteLength(fileBody)] *)
Definition Buffer_byteLength (b : Buffer) : Z := Z.of_nat (List.length b).

Definition TeraBox_upload (this : TeraBox) (filePath : value) (fileBody : Buffer)
  : M TeraBoxDirent.t :=
  let size := Buffer_byteLength fileBody in
  let* targetPath := lift (path_dirname filePath) in
  let targetPath := if negb (endsWith targetPath "/") then targetPath ++ "/" else targetPath in
  match filePath with
  | Str filePath =>
      let* local_mtime := now_seconds in
      let* data_precreate :=
        fetch_json (POST_precreate this filePath targetPath size local_mtime) in
      let* errno := prop data_precreate "errno" in
      if negb (is_strictly_0 errno) then throw_ERR_API data_precreate
      else
        let* data_superfile :=
          fetch_json (POST_superfile2 this filePath (get data_precreate "uploadid")
                        fileBody (Path.basename filePath)) in
        let* md5 := prop data_superfile "md5" in
        if JS.not md5 then throw (ERR_API_Unable "upload file")
        else
          let* local_mtime := now_seconds in
          let* data_create :=
            fetch_json (POST_create this filePath size (get data_precreate "uploadid")
                          targetPath md5 local_mtime) in
          let* errno := prop data_create "errno" in
          if is_strictly_0 errno then lift (TeraBoxDirent.constructor data_create this)
          else throw_ERR_API data_create
  | other => throw (ERR_INVALID_ARG_TYPE "path" "string" (typeof other))
  end.

(** An element of the arrays [download] and [delete] accept: an instance
    of [TeraBoxDirent] or a plain value. *)
Inductive Item : Type :=
| Dirent (d : TeraBoxDirent.t)
| Plain (v : value).

(** The argument itself: an array of items, or a single item. *)
Inductive Items : Type :=
| Many (l : list Item)
| One (i : Item).

(** [if (!Array.isArray(x)) x = [x]] *)
Definition as_array (x : Items) : list Item :=
  match x with
  | Many l => l
  | One (Plain (Arr l)) => map Plain l
  | One i => [i]
  end.

Definition download_fileId (fileId : Item) : Result value :=
  match fileId with
  | Dirent d => Ok (TeraBoxDirent.id d)
  | Plain v =>
      if String.eqb (typeof v) "number" || String.eqb (typeof v) "string"
      then Ok (Num (JS.Number v))
      else Throw (ERR_INVALID_ARG_TYPE "fileIds"
                    "an array of TeraBoxDirent instances or strings/numbers" (typeof v))
  end.

Definition TeraBox_fetchHome (this : TeraBox) : M value :=
  let* data := fetch_json (POST_home_info this) in
  if_errno_0 data
    (let home := get data "data" in
     if JS.not home || JS.not (get home "sign1") || JS.not (get home "sign2")
        || JS.not (get home "sign3") || JS.not (get home "timestamp")
     then throw (ERR_API_Unable "fetch home information")
     else ret home).

Module Signature.
Record t : Type := mk {
  sign : string;
  timestamp : value
}.
End Signature.

Definition eval_sign2 (sign2 sign3 sign1 : value) : M value :=
  fun w tr => (call_sign2 w sign2 sign3 sign1, tr).

Definition TeraBox_sign (this : TeraBox) : M Signature.t :=
  let* home := TeraBox_fetchHome this in
  let* e := eval_sign2 (get home "sign2") (get home "sign3") (get home "sign1") in
  let* t := lift (Sign.encode_value e) in
  ret {| Signature.sign := t; Signature.timestamp := get home "timestamp" |}.

(** One element of the result of [download]: [{id, link}] *)
Module Link.
Record t : Type := mk {
  id : value;
  link : value
}.
End Link.

Definition download_link (i : value) : Result Link.t :=
  if is_nullish i then
    Throw (TypeError "Cannot read properties of undefined (reading 'fs_id')")
  else Ok {| Link.id := get i "fs_id"; Link.link := get i "dlink" |}.

Definition TeraBox_download (this : TeraBox) (fileIds : Items) : M (list Link.t) :=
  let* fileIds := lift (mapM download_fileId (as_array fileIds)) in
  let* sign := TeraBox_sign this in
  let* data :=
    fetch_json (POST_download this fileIds (Str (Signature.sign sign)) (Signature.timestamp sign)) in
  if_errno_0 data
    (let dlink := get data "dlink" in
     if JS.not dlink || JS.lt (get dlink "length") (Num (of_Z 1))
     then throw (ERR_API_Unable "fetch download link")
     else map_array "data.dlink" dlink download_link).

(** [Object.entries(v)] *)
Definition Object_entries (v : value) : Result (list (string * value)) :=
  match v with
  | Obj props => Ok props
  | Arr items =>
      Ok (combine (map (fun i => decimal (Z.of_nat i)) (seq 0 (List.length items))) items)
  | Str str =>
      Ok (combine (map (fun i => decimal (Z.of_nat i)) (seq 0 (String.length str)))
            (map (fun c => Str (String c EmptyString)) (list_ascii_of_string str)))
  | Undefined | Null => Throw (TypeError "Cannot convert undefined or null to object")
  | Bool _ | Num _ => Ok []
  end.

(** The arrow function mapped over the entries of [files] in [move] *)
Definition move_entry (entry : string * value) : Result MoveEntry.t :=
  let (sourcePath, targetPath) := entry in
  match path_dirname targetPath with
  | Throw e => Throw e
  | Ok dir =>
      match path_basename targetPath with
      | Throw e => Throw e
      | Ok base =>
          Ok {| MoveEntry.path := sourcePath;
                MoveEntry.dest := if String.eqb dir "/" then "" else dir;
                MoveEntry.newname := base |}
      end
  end.

Definition TeraBox_move (this : TeraBox) (files : value) : M bool :=
  if typeof_is_not files "object" then
    throw (ERR_INVALID_ARG_TYPE "files" "object" (typeof files))
  else
    let* entries := lift (Object_entries files) in
    let* filelist := lift (mapM move_entry entries) in
    let* data := fetch_json (POST_filemanager_move this filelist) in
    if_errno_0 data (ret true).

Definition delete_filePath (filePath : Item) : Result string :=
  match filePath with
  | Dirent d => Ok (TeraBoxDirent.path d)
  | Plain (Str p) => Ok p
  | Plain v =>
      Throw (ERR_INVALID_ARG_TYPE "files"
               "an array of TeraBoxDirent instances or strings" (typeof v))
  end.

Definition TeraBox_delete (this : TeraBox) (files : Items) : M bool :=
  let* files := lift (mapM delete_filePath (as_array files)) in
  let* data := fetch_json (POST_filemanager_delete this files) in
  if_errno_0 data (ret true).

Definition TeraBox_stream (this : TeraBox) (filePath type : value) : M string :=
  match filePath with
  | Str filePath =>
      let type := default type (Str "M3U8_FLV_264_480") in
      let* data := fetch (POST_streaming this filePath type) in
      if startsWith data "{" then
        try_catch
          (let* json := parse data in
           let* errno := prop json "errno" in
           if negb (is_strictly_0 errno) then throw_ERR_API json
           else ret data)
          (fun _ => ret data)
      else ret data
  | other => throw (ERR_INVALID_ARG_TYPE "filePath" "string" (typeof other))
  end.

(** ** The entry's delegating methods *)

Definition TeraBoxDirent_download (this : TeraBoxDirent.t) : M value :=
  let* d := TeraBox_download (TeraBoxDirent.client this) (One (Plain (TeraBoxDirent.id this))) in
  match d with
  | d0 :: _ => ret (Link.link d0)
  | [] => throw (TypeError "Cannot read properties of undefined (reading 'link')")
  end.

Definition TeraBoxDirent_move (this : TeraBoxDirent.t) (targetPath : value) : M bool :=
  if typeof_is_not targetPath "string" then
    throw (ERR_INVALID_ARG_TYPE "targetPath" "string" (typeof targetPath))
  else
    TeraBox_move (TeraBoxDirent.client this) (Obj [(TeraBoxDirent.path this, targetPath)]).

Definition TeraBoxDirent_delete (this : TeraBoxDirent.t) : M bool :=
  TeraBox_delete (TeraBoxDirent.client this) (One (Plain (Str (TeraBoxDirent.path this)))).

Definition TeraBoxDirent_stream (this : TeraBoxDirent.t) (type : value) : M string :=
  TeraBox_stream (TeraBoxDirent.client this) (Str (TeraBoxDirent.path this)) type.

(** * Definitions for the statements *)

(** ** Running the model *)

Definition run {A} (m : M A) (w : World) : Result A * Trace := m w [].

Definition dq : string := String (ascii_of_nat 34) EmptyString.

(** The JSON text of a value made of objects, arrays, integers and strings
    that need no escape: what the sample responses below are written
    with. *)
Fixpoint JSON_text (v : value) : string :=
  match v with
  | Undefined | Null => "null"
  | Bool b => if b then "true" else "false"
  | Num (Fin q) => decimal (Qnum q)
  | Num _ => "null"
  | Str str => dq ++ str ++ dq
  | Arr items =>
      "["
      ++ (fix elements (l : list value) : string :=
            match l with
            | [] => ""
            | [x] => JSON_text x
            | x :: l' => JSON_text x ++ "," ++ elements l'
            end) items
      ++ "]"
  | Obj props =>
      "{"
      ++ (fix members (l : list (string * value)) : string :=
            match l with
            | [] => ""
            | [(k, x)] => dq ++ k ++ dq ++ ":" ++ JSON_text x
            | (k, x) :: l' => dq ++ k ++ dq ++ ":" ++ JSON_text x ++ "," ++ members l'
            end) props
      ++ "}"
  end.

Fixpoint assoc {A} (k : string) (table : list (string * A)) : option A :=
  match table with
  | [] => None
  | (k', a) :: rest => if String.eqb k k' then Some a else assoc k rest
  end.

(** An upstream that answers by the kind of request alone, each answer
    being the JSON text of a value or nothing, at a fixed time;
    [JSON.parse] is given on the texts of [bodies]; the server-supplied
    function returns its second argument. *)
Definition table_World (answer : Request -> option value) (bodies : list value) : World :=
  {| respond := fun _ req => option_map JSON_text (answer req);
     Date_now := fun _ => 1700000000123;
     JSON_parse := fun text => assoc text (map (fun v => (JSON_text v, v)) bodies);
     call_sign2 := fun _ sign3 sign1 => Ok sign1 |}.

(** ** Sample data *)

Definition sample_client : TeraBox :=
  {| Credentials.ndus := Str "tok";
     Credentials.lang := Str Defaults.lang;
     Credentials.appId := Str Defaults.appId;
     Credentials.browserId := Undefined;
     Credentials.host := Str Defaults.host;
     Credentials.blockId := Str Defaults.blockId;
     Credentials.cookies := (Undefined, Undefined, Str "tok");
     Credentials.userAgent := Str Defaults.userAgent;
     Credentials.jsToken := Str Defaults.jsToken |}.

(** A listing record as the upstream sends it, without a [size]. *)
Definition sample_record : value :=
  Obj [("fs_id", Num (of_Z 42)); ("server_filename", Str "b.txt");
       ("path", Str "/a/b.txt"); ("server_ctime", Num (of_Z 1700000000));
       ("server_mtime", Num (of_Z 1700000001)); ("isdir", Num (of_Z 0))].

Definition sample_dirent : TeraBoxDirent.t :=
  {| TeraBoxDirent.id := Num (of_Z 42);
     TeraBoxDirent.size := Num (of_Z 0);
     TeraBoxDirent.name := Str "b.txt";
     TeraBoxDirent.path := "/a/b.txt";
     TeraBoxDirent.parentPath := "/a";
     TeraBoxDirent.atimeMs := NaN;
     TeraBoxDirent.ctimeMs := of_Z 1700000000000;
     TeraBoxDirent.mtimeMs := of_Z 1700000001000;
     TeraBoxDirent.birthtimeMs := of_Z 1700000000000;
     TeraBoxDirent.client := sample_client;
     TeraBoxDirent._isDirectory := false |}.

Definition three_bytes : Buffer := [Byte.x66; Byte.x6f; Byte.x6f].

(** Envelopes *)

Definition ok_envelope : value := Obj [("errno", Num (of_Z 0))].

Definition refused_envelope : value :=
  Obj [("errno", Num (of_Z 2)); ("errmsg", Str "denied")].

Definition quota_envelope : value :=
  Obj [("errno", Num (of_Z 0)); ("used", Num (of_Z 3)); ("total", Num (of_Z 10))].

Definition precreate_envelope : value :=
  Obj [("errno", Num (of_Z 0)); ("uploadid", Str "N1")].

Definition transfer_response : value := Obj [("md5", Str "9e107d9d")].

Definition create_envelope : value :=
  Obj [("errno", Num (of_Z 0)); ("fs_id", Num (of_Z 7)); ("path", Str "/a/f.mp4");
       ("size", Num (of_Z 3)); ("ctime", Num (of_Z 1700000000))].

Definition home_envelope : value :=
  Obj [("errno", Num (of_Z 0));
       ("data", Obj [("sign1", Str "fo"); ("sign2", Str "function s(j, r) { return r }");
                     ("sign3", Str "k"); ("timestamp", Num (of_Z 1700000000))])].

Definition dlink_envelope : value :=
  Obj [("errno", Num (of_Z 0));
       ("dlink", Arr [Obj [("fs_id", Num (of_Z 42)); ("dlink", Str "https://d/42")]])].

(** Upstreams *)

Definition quota_World : World :=
  table_World (fun _ => Some quota_envelope) [quota_envelope].

Definition move_World : World :=
  table_World (fun _ => Some ok_envelope) [ok_envelope].

(** An upstream that answers precreate with [precreate] and lets the
    other two steps of an upload succeed. *)
Definition upload_World (precreate : value) : World :=
  table_World
    (fun req =>
       match req with
       | POST_precreate _ _ _ _ _ => Some precreate
       | POST_superfile2 _ _ _ _ _ => Some transfer_response
       | POST_create _ _ _ _ _ _ _ => Some create_envelope
       | _ => None
       end)
    [precreate_envelope; refused_envelope; transfer_response; create_envelope].

(** An upstream that refuses everything with [errno] 2. *)
Definition refusing_World : World :=
  table_World (fun _ => Some refused_envelope) [refused_envelope].

Definition download_World : World :=
  table_World
    (fun req =>
       match req with
       | POST_home_info _ => Some home_envelope
       | POST_download _ _ _ _ => Some dlink_envelope
       | _ => None
       end)
    [home_envelope; dlink_envelope].

(** ** The constructor *)

(** A field that takes the caller's value when it is truthy and the
    default otherwise. *)
Definition defaulted (given : value) (dflt : string) (stored : value) : Prop :=
  if ToBoolean given then stored = given else stored = Str dflt.

(** ** The error envelope *)

(** The error that carries the code and the message of an envelope *)
Definition envelope_error (data : value) : Error :=
  ERR_API (get data "errno") (JS.or (get data "errmsg") (Str "")).

(** ** Computations that make no request *)

Definition silent {A} (m : M A) : Prop := forall w tr, snd (m w tr) = tr.

(** ** [move] *)

(** What the specification asks of the record sent for one entry of the
    mapping. *)
Definition encodes (entry : string * value) (r : MoveEntry.t) : Prop :=
  exists target,
    snd entry = Str target
    /\ MoveEntry.path r = fst entry
    /\ MoveEntry.newname r = Path.basename target
    /\ (Path.dirname target = "/" -> MoveEntry.dest r = "")
    /\ (Path.dirname target <> "/" -> MoveEntry.dest r = Path.dirname target).

Definition target_is_string (entry : string * value) : bool :=
  String.eqb (typeof (snd entry)) "string".

Definition no_slash (name : string) : bool :=
  forallb (fun c => negb (charCode c =? Path.CHAR_FORWARD_SLASH)) (list_ascii_of_string name).

(** ** [upload] *)

Definition is_precreate (req : Request) : bool :=
  match req with POST_precreate _ _ _ _ _ => true | _ => false end.

Definition is_transfer (req : Request) : bool :=
  match req with POST_superfile2 _ _ _ _ _ => true | _ => false end.

Definition is_finalize (req : Request) : bool :=
  match req with POST_create _ _ _ _ _ _ _ => true | _ => false end.

(** The JSON an event's response parsed to, if it did. *)
Definition returned (w : World) (ev : Event) : option value :=
  match snd ev with
  | Some body => JSON_parse w body
  | None => None
  end.

Definition precreate_returned_0 (w : World) (ev : Event) : bool :=
  is_precreate (fst ev)
  && match returned w ev with
     | Some data => is_strictly_0 (get data "errno")
     | None => false
     end.

Definition transfer_returned_checksum (w : World) (ev : Event) : bool :=
  is_transfer (fst ev)
  && match returned w ev with
     | Some data => ToBoolean (get data "md5")
     | None => false
     end.

(** The requests one call of [upload] can make. *)
Inductive upload_steps (w : World) : list Event -> Prop :=
| steps_none :
    upload_steps w []
| steps_precreate p :
    is_precreate (fst p) = true ->
    upload_steps w [p]
| steps_transfer p t :
    precreate_returned_0 w p = true ->
    is_transfer (fst t) = true ->
    upload_steps w [p; t]
| steps_finalize p t f :
    precreate_returned_0 w p = true ->
    transfer_returned_checksum w t = true ->
    is_finalize (fst f) = true ->
    upload_steps w [p; t; f].

(** What a run of [upload] started after [tr] can end in: the requests
    it added are upload steps, and there are three of them if it returned. *)
Definition upload_outcome (w : World) (tr : Trace)
    (r : Result TeraBoxDirent.t * Trace) : Prop :=
  exists new,
    snd r = (tr ++ new)%list
    /\ upload_steps w new
    /\ (is_Ok (fst r) = true -> List.length new = 3%nat).

(** ** [download] *)



Definition is_download (ev : Event) : bool :=
  match fst ev with POST_download _ _ _ _ => true | _ => false end.

Definition fidlist_of (ev : Event) : list value :=
  match fst ev with POST_download _ fidlist _ _ => fidlist | _ => [] end.

(** ** Base 64 as RFC 4648 defines it

    Three octets are a 24-bit group read as four 6-bit groups; a final
    single octet is padded with zero bits to two 6-bit groups and followed
    by ["=="]; a final pair of octets is padded to three 6-bit groups and
    followed by ["="].  6-bit values 0 to 25 are the letters [A] to [Z],
    26 to 51 are [a] to [z], 52 to 61 are [0] to [9], 62 is [+] and 63
    is [/]. *)

Module RFC4648.

Definition sextet_char (v : Z) : ascii :=
  ascii_of_nat (Z.to_nat
    (if v <? 26 then 65 + v
     else if v <? 52 then 97 + (v - 26)
     else if v <? 62 then 48 + (v - 52)
     else if v =? 62 then 43
     else 47)).

Definition sextets (vs : list Z) : string :=
  string_of_list_ascii (map sextet_char vs).

Definition encode_24 (a b c : Z) : string :=
  let n := a * 65536 + b * 256 + c in
  sextets [(n / 262144) mod 64; (n / 4096) mod 64; (n / 64) mod 64; n mod 64].

Definition encode_16 (a b : Z) : string :=
  let n := (a * 256 + b) * 4 in
  sextets [(n / 4096) mod 64; (n / 64) mod 64; n mod 64] ++ "=".

Definition encode_8 (a : Z) : string :=
  let n := a * 16 in
  sextets [(n / 64) mod 64; n mod 64] ++ "==".

Fixpoint encode (octets : list Z) : string :=
  match octets with
  | [] => ""
  | [a] => encode_8 a
  | [a; b] => encode_16 a b
  | a :: b :: c :: rest => encode_24 a b c ++ encode rest
  end.

(** The padding that follows [k] leftover octets *)
Definition padding (k : nat) : string :=
  match k with
  | 0%nat => ""
  | 1%nat => "=="
  | _ => "="
  end.

Definition in_alphabet (c : ascii) : bool :=
  let n := nat_of_ascii c in
  ((65 <=? n) && (n <=? 90) || (97 <=? n) && (n <=? 122)
   || (48 <=? n) && (n <=? 57) || (n =? 43) || (n =? 47))%nat.

End RFC4648.

Definition is_byte (c : Z) : Prop := 0 <= c < 256.

Definition all_bytes : list Z := map Z.of_nat (seq 0 256).

Definition char_of (v : Z) : string := String (RFC4648.sextet_char v) EmptyString.

Definition all_in_alphabet (body : string) : bool :=
  forallb RFC4648.in_alphabet (list_ascii_of_string body).

(** The number of characters before the padding, for [n] octets *)
Definition body_length (n : nat) : nat :=
  (4 * (n / 3) + match n mod 3 with 0 => 0 | k => S k end)%nat.

(** The encoder's three cases as a recursion on the input: what the loop
    appends from position [i] on is [chunks] of the input from [i] on. *)
Fixpoint chunks (e : list Z) : string :=
  match e with
  | [] => ""
  | a0 :: e1 =>
      let a := Z.land 255 a0 in
      match e1 with
      | [] =>
          Sign.charAt Sign.s (Z.shiftr a 2)
          ++ Sign.charAt Sign.s (Z.shiftl (Z.land 3 a) 4) ++ "=="
      | r :: e2 =>
          match e2 with
          | [] =>
              Sign.charAt Sign.s (Z.shiftr a 2)
              ++ Sign.charAt Sign.s (Z.lor (Z.shiftl (Z.land 3 a) 4) (Z.shiftr (Z.land 240 r) 4))
              ++ Sign.charAt Sign.s (Z.shiftl (Z.land 15 r) 2) ++ "="
          | o :: e3 =>
              Sign.charAt Sign.s (Z.shiftr a 2)
              ++ Sign.charAt Sign.s (Z.lor (Z.shiftl (Z.land 3 a) 4) (Z.shiftr (Z.land 240 r) 4))
              ++ Sign.charAt Sign.s (Z.lor (Z.shiftl (Z.land 15 r) 2) (Z.shiftr (Z.land 192 o) 6))
              ++ Sign.charAt Sign.s (Z.land 63 o)
              ++ chunks e3
          end
      end
  end.

(** ** Definitions for the further properties *)

(** A listing record the entry constructor accepts: its [path] is a
    string. *)
Definition has_string_path (i : value) : bool :=
  match get i "path" with
  | Str _ => true
  | _ => false
  end.

(** The path [delete] takes from an element, if it takes one. *)
Definition item_path (i : Item) : option string :=
  match i with
  | Dirent d => Some (TeraBoxDirent.path d)
  | Plain (Str p) => Some p
  | Plain _ => None
  end.

(** The home-info data [#fetchHome] accepts: all four fields truthy. *)
Definition home_is_complete (home : value) : bool :=
  ToBoolean home && ToBoolean (get home "sign1") && ToBoolean (get home "sign2")
  && ToBoolean (get home "sign3") && ToBoolean (get home "timestamp").

Definition is_home_info (req : Request) : bool :=
  match req with POST_home_info _ => true | _ => false end.

(** The home-info request was answered with [errno] zero and complete
    data. *)
Definition home_info_returned_data (w : World) (ev : Event) : bool :=
  is_home_info (fst ev)
  && match returned w ev with
     | Some data => is_strictly_0 (get data "errno") && home_is_complete (get data "data")
     | None => false
     end.

(** The [{id, link}] pair [download] makes of one element of [dlink] *)
Definition link_of (i : value) : Link.t :=
  {| Link.id := get i "fs_id"; Link.link := get i "dlink" |}.

(** [targetPath] as [upload] computes it from [filePath] *)
Definition upload_targetPath (filePath : string) : string :=
  if negb (endsWith (Path.dirname filePath) "/")
  then Path.dirname filePath ++ "/"
  else Path.dirname filePath.

(** *** Decoding base64

    The inverse of the RFC 4648 encoding, on padded text: four characters
    at a time, the last group possibly ending in one or two [=]. *)

Module Decode.

Definition sextet_of (c : ascii) : option Z :=
  let n := Z.of_nat (nat_of_ascii c) in
  if (65 <=? n) && (n <=? 90) then Some (n - 65)
  else if (97 <=? n) && (n <=? 122) then Some (n - 97 + 26)
  else if (48 <=? n) && (n <=? 57) then Some (n - 48 + 52)
  else if n =? 43 then Some 62
  else if n =? 47 then Some 63
  else None.

Definition is_pad (c : ascii) : bool := Ascii.eqb c "=".

(** One group of four characters: the octets it stands for. *)
Definition group (c0 c1 c2 c3 : ascii) : option (list Z) :=
  match sextet_of c0, sextet_of c1 with
  | Some v0, Some v1 =>
      if is_pad c2 && is_pad c3 then Some [v0 * 4 + v1 / 16]
      else
        match sextet_of c2 with
        | Some v2 =>
            if is_pad c3 then Some [v0 * 4 + v1 / 16; v1 mod 16 * 16 + v2 / 4]
            else
              match sextet_of c3 with
              | Some v3 =>
                  Some [v0 * 4 + v1 / 16; v1 mod 16 * 16 + v2 / 4; v2 mod 4 * 64 + v3]
              | None => None
              end
        | None => None
        end
  | _, _ => None
  end.

Fixpoint decode (text : string) : option (list Z) :=
  match text with
  | EmptyString => Some []
  | String c0 (String c1 (String c2 (String c3 rest))) =>
      match group c0 c1 c2 c3, decode rest with
      | Some octets, Some more => Some (octets ++ more)%list
      | _, _ => None
      end
  | _ => None
  end.

End Decode.

(** Sample responses for the further properties *)

Definition second_record : value :=
  Obj [("fs_id", Num (of_Z 43)); ("server_filename", Str "c"); ("path", Str "/a/c");
       ("server_mtime", Num (of_Z 0)); ("mtime", Num (of_Z 1600000000));
       ("isdir", Num (of_Z 1))].

Definition listing_envelope : value :=
  Obj [("errno", Num (of_Z 0)); ("list", Arr [sample_record; second_record])].

(** A listing whose second record has no [path] *)
Definition broken_listing_envelope : value :=
  Obj [("errno", Num (of_Z 0));
       ("list", Arr [sample_record; Obj [("fs_id", Num (of_Z 43))]])].

Definition listing_World (envelope : value) : World :=
  table_World (fun _ => Some envelope) [listing_envelope; broken_listing_envelope].

(** An element [delete] refuses: neither an entry nor a string. *)
Definition no_path (i : Item) : bool :=
  match item_path i with None => true | Some _ => false end.

(** The request [download] makes for the ids [ids] once [#sign] has the
    home data [home] and the server-supplied function returned the string
    [transformed] *)
Definition signed_download_request (this : TeraBox) (ids : list value)
    (home : value) (transformed : string) : Request :=
  POST_download this ids (Str (RFC4648.encode (charCodes transformed)))
    (get home "timestamp").

Definition not_nullish (v : value) : bool := negb (is_nullish v).

(** Sample responses of the download endpoint without links *)
Definition no_dlink_envelope : value := Obj [("errno", Num (of_Z 0)); ("dlink", Arr [])].

Definition no_links_World : World :=
  table_World
    (fun req =>
       match req with
       | POST_home_info _ => Some home_envelope
       | POST_download _ _ _ _ => Some no_dlink_envelope
       | _ => None
       end)
    [home_envelope; no_dlink_envelope].

(** Home data without [sign3] *)
Definition incomplete_home_envelope : value :=
  Obj [("errno", Num (of_Z 0));
       ("data", Obj [("sign1", Str "fo"); ("sign2", Str "function s(j, r) { return r }");
                     ("timestamp", Num (of_Z 1700000000))])].

Definition incomplete_home_World : World :=
  table_World (fun _ => Some incomplete_home_envelope) [incomplete_home_envelope].

(** The three requests of an upload of [fileBody] to [filePath]: at the
    clock reading [now], with the answer [precreated] to precreate, and
    with the answer [transferred] to the transfer *)
Definition precreate_request (this : TeraBox) (filePath : string) (fileBody : Buffer)
    (now : Z) : Request :=
  POST_precreate this filePath (upload_targetPath filePath)
    (Buffer_byteLength fileBody) (now / 1000).

Definition transfer_request (this : TeraBox) (filePath : string) (fileBody : Buffer)
    (precreated : value) : Request :=
  POST_superfile2 this filePath (get precreated "uploadid") fileBody
    (Path.basename filePath).

Definition finalize_request (this : TeraBox) (filePath : string) (fileBody : Buffer)
    (precreated transferred : value) (now : Z) : Request :=
  POST_create this filePath (Buffer_byteLength fileBody) (get precreated "uploadid")
    (upload_targetPath filePath) (get transferred "md5") (now / 1000).

(** An upstream whose transfer endpoint answers without [md5] *)
Definition no_checksum_response : value := Obj [("error_code", Num (of_Z 31064))].

Definition no_checksum_World : World :=
  table_World
    (fun req =>
       match req with
       | POST_precreate _ _ _ _ _ => Some precreate_envelope
       | POST_superfile2 _ _ _ _ _ => Some no_checksum_response
       | _ => None
       end)
    [precreate_envelope; no_checksum_response].

(** An upstream that answers every request with an HLS playlist *)
Definition playlist : string := "#EXTM3U".

Definition playlist_World : World :=
  {| respond := fun _ _ => Some playlist;
     Date_now := fun _ => 1700000000123;
     JSON_parse := fun _ => None;
     call_sign2 := fun _ _ sign1 => Ok sign1 |}.

(** An upstream that cannot be reached *)
Definition unreachable_World : World :=
  {| respond := fun _ _ => None;
     Date_now := fun _ => 1700000000123;
     JSON_parse := fun _ => None;
     call_sign2 := fun _ _ sign1 => Ok sign1 |}.

(** An integer that is a double: rounding leaves it alone.  These are the
    integers a JavaScript number can hold. *)
Definition is_double (z : Z) : Prop := binary64 (inject_Z z) = of_Z z.



(** * Properties *)

(** ** Directory entries *)

Section DirentFacts.

Variable client : TeraBox.

Lemma constructor_succeeds (data : value) (p : string) :
  get data "path" = Str p ->
  exists d, TeraBoxDirent.constructor data client = Ok d.
Proof.
  intros Hp. unfold TeraBoxDirent.constructor.
  destruct data; simpl in *; try discriminate; rewrite Hp; eauto.
Qed.

Lemma constructor_inv (data : value) (d : TeraBoxDirent.t) :
  TeraBoxDirent.constructor data client = Ok d ->
  exists p,
    get data "path" = Str p /\
    d = {|
      TeraBoxDirent.id := get data "fs_id";
      TeraBoxDirent.size := JS.or (get data "size") (Num (of_Z 0));
      TeraBoxDirent.name := get data "server_filename";
      TeraBoxDirent.path := p;
      TeraBoxDirent.parentPath := Path.dirname p;
      TeraBoxDirent.atimeMs := JS.mul (JS.or (get data "server_atime") (get data "atime")) (Num (of_Z 1000));
      TeraBoxDirent.ctimeMs := JS.mul (JS.or (get data "server_ctime") (get data "ctime")) (Num (of_Z 1000));
      TeraBoxDirent.mtimeMs := JS.mul (JS.or (get data "server_mtime") (get data "mtime")) (Num (of_Z 1000));
      TeraBoxDirent.birthtimeMs := JS.mul (JS.or (get data "server_ctime") (get data "ctime")) (Num (of_Z 1000));
      TeraBoxDirent.client := client;
      TeraBoxDirent._isDirectory := negb (JS.not (get data "isdir"))
    |}.
Proof.
  unfold TeraBoxDirent.constructor. intros H.
  destruct (is_nullish data); [discriminate |].
  destruct (get data "path") eqn:Hp; try discriminate.
  exists s. split; [reflexivity |]. congruence.
Qed.

End DirentFacts.

(** C8: for every entry exactly one of [isFile()] and [isDirectory()] is
    true; [isFile()] is the negation of [isDirectory()], and both read the
    one private flag that the constructor sets to [!!data.isdir]. *)
Theorem isFile_isDirectory_exclusive (d : TeraBoxDirent.t) :
  TeraBoxDirent.isFile d = negb (TeraBoxDirent.isDirectory d)
  /\ xorb (TeraBoxDirent.isFile d) (TeraBoxDirent.isDirectory d) = true
  /\ TeraBoxDirent.isDirectory d = TeraBoxDirent._isDirectory d
  /\ (forall data client,
        TeraBoxDirent.constructor data client = Ok d ->
        TeraBoxDirent.isDirectory d = ToBoolean (get data "isdir")).
Proof.
  unfold TeraBoxDirent.isFile, TeraBoxDirent.isDirectory.
  repeat split.
  - destruct (TeraBoxDirent._isDirectory d); reflexivity.
  - intros data client H.
    destruct (constructor_inv client data d H) as [p [_ ->]]. simpl.
    unfold JS.not. apply negb_involutive.
Qed.

(** C9: an entry's [birthtimeMs] equals its [ctimeMs], both being
    [(data.server_ctime || data.ctime) * 1000], so the [birthtime] and
    [ctime] accessors give the same date. *)
Theorem birthtime_is_ctime (data : value) (client : TeraBox) (d : TeraBoxDirent.t) :
  TeraBoxDirent.constructor data client = Ok d ->
  TeraBoxDirent.birthtimeMs d = TeraBoxDirent.ctimeMs d
  /\ TeraBoxDirent.ctimeMs d
     = JS.mul (JS.or (get data "server_ctime") (get data "ctime")) (Num (of_Z 1000))
  /\ TeraBoxDirent.birthtime d = TeraBoxDirent.ctime d.
Proof.
  intros H. destruct (constructor_inv client data d H) as [p [_ ->]].
  unfold TeraBoxDirent.birthtime, TeraBoxDirent.ctime. simpl. auto.
Qed.

Lemma birthtime_is_ctime_witness :
  exists d,
    TeraBoxDirent.constructor sample_record sample_client = Ok d
    /\ TeraBoxDirent.birthtimeMs d = of_Z 1700000000000
    /\ TeraBoxDirent.birthtimeMs d = TeraBoxDirent.ctimeMs d.
Proof.
  eexists. split; [reflexivity |]. split; [reflexivity |].
  apply (birthtime_is_ctime sample_record sample_client). reflexivity.
Defined.

(** C10: a record whose [size] is missing, zero or otherwise falsy gives
    an entry of size [0]; [name], [path] and [id] are the record's
    [server_filename], [path] and [fs_id]. *)
Theorem size_defaults_to_0 (data : value) (client : TeraBox) (p : string) :
  get data "path" = Str p ->
  ToBoolean (get data "size") = false ->
  exists d,
    TeraBoxDirent.constructor data client = Ok d
    /\ TeraBoxDirent.size d = Num (of_Z 0)
    /\ TeraBoxDirent.name d = get data "server_filename"
    /\ Str (TeraBoxDirent.path d) = get data "path"
    /\ TeraBoxDirent.id d = get data "fs_id".
Proof.
  intros Hp Hsize.
  destruct (constructor_succeeds client data p Hp) as [d Hd].
  exists d. split; [exact Hd |].
  destruct (constructor_inv client data d Hd) as [p' [Hp' ->]]. simpl.
  unfold JS.or. rewrite Hsize. rewrite Hp'. auto.
Qed.

Lemma size_defaults_to_0_witness :
  exists d,
    TeraBoxDirent.constructor sample_record sample_client = Ok d
    /\ TeraBoxDirent.size d = Num (of_Z 0)
    /\ TeraBoxDirent.name d = Str "b.txt"
    /\ Str (TeraBoxDirent.path d) = Str "/a/b.txt"
    /\ TeraBoxDirent.id d = Num (of_Z 42).
Proof.
  exact (size_defaults_to_0 sample_record sample_client "/a/b.txt" eq_refl eq_refl).
Defined.

Lemma isFile_isDirectory_exclusive_witness :
  exists d,
    TeraBoxDirent.constructor sample_record sample_client = Ok d
    /\ TeraBoxDirent.isFile d = true
    /\ TeraBoxDirent.isDirectory d = false.
Proof.
  eexists. split; [reflexivity |].
  match goal with
  | |- TeraBoxDirent.isFile ?d = _ /\ _ =>
      destruct (isFile_isDirectory_exclusive d) as [Hneg [_ [_ Hctor]]];
      rewrite Hneg, (Hctor sample_record sample_client eq_refl)
  end.
  split; reflexivity.
Defined.

(** ** Numbers *)

Lemma Qred_inject_Z (z : Z) : Qred (inject_Z z) = inject_Z z.
Proof.
  apply Qred_identity. simpl. apply Z.gcd_1_r.
Qed.

Lemma nearest_even_1 (n : Z) : nearest_even n 1 = n.
Proof.
  unfold nearest_even. rewrite Z.div_1_r, Z.mod_1_r. reflexivity.
Qed.

(** Every integer up to [2^53] in absolute value is a double. *)
Lemma binary64_integer (z : Z) :
  Z.abs z <= 2 ^ 53 -> binary64 (inject_Z z) = of_Z z.
Proof.
  intros Hz.
  destruct (Z.eq_dec (Z.abs z) (2 ^ 53)) as [Htop | Hlow].
  { assert (z = 2 ^ 53 \/ z = - 2 ^ 53) as [-> | ->] by lia; vm_compute; reflexivity. }
  destruct (Z.eq_dec z 0) as [-> | Hnz]; [reflexivity |].
  unfold binary64. cbn [Qnum Qden inject_Z].
  set (n := Z.abs z).
  assert (Hn : 0 < n < 2 ^ 53) by lia.
  replace (n =? 0) with false by (symmetry; apply Z.eqb_neq; lia).
  change (Z.log2 1) with 0. rewrite Z.sub_0_r.
  destruct (Z.log2_spec n (proj1 Hn)) as [Hlo _].
  pose proof (Z.log2_nonneg n) as H0.
  assert (Hl : Z.log2 n < 53) by (apply Z.log2_lt_pow2; lia).
  unfold at_least_pow2.
  replace (0 <=? Z.log2 n) with true by (symmetry; apply Z.leb_le; lia).
  rewrite Z.mul_1_l.
  replace (2 ^ Z.log2 n <=? n) with true by (symmetry; apply Z.leb_le; lia).
  rewrite Z.max_l by lia.
  set (e := Z.log2 n - 52).
  assert (He : - 52 <= e <= 0) by lia.
  replace (971 <? e) with false by (symmetry; apply Z.ltb_ge; lia).
  replace (e =? 971) with false by (symmetry; apply Z.eqb_neq; lia).
  cbn [orb andb].
  assert (Hs : (if z <? 0 then - n else n) = z).
  { destruct (Z.ltb_spec z 0); lia. }
  destruct (Z.leb_spec 0 e) as [Hpos | Hneg].
  - replace e with 0 by lia. cbn [Z.pow Z.mul Pos.mul].
    rewrite nearest_even_1, Hs, Z.mul_1_r. reflexivity.
  - rewrite nearest_even_1.
    unfold of_Z. f_equal.
    rewrite <- (Qred_inject_Z z). apply Qred_complete.
    assert (Hp : 0 < 2 ^ (- e)) by (apply Z.pow_pos_nonneg; lia).
    unfold Qeq, inject_Z. cbn [Qnum Qden].
    rewrite Z2Pos.id by exact Hp.
    destruct (Z.ltb_spec z 0); nia.
Qed.

(** Past [2^53] integers are rounded, fractions take the nearest double,
    and magnitudes from [2^1024] on are infinite. *)
Example binary64_rounds :
  StringToNumber "9007199254740993" = of_Z 9007199254740992
  /\ number_sub (of_Z (10 ^ 16)) (of_Z 1) = of_Z (10 ^ 16)
  /\ number_mul (of_Z 9007199254740991) (of_Z 1000) = of_Z 9007199254740990976
  /\ StringToNumber "0.1" = Fin (3602879701896397 # 36028797018963968)
  /\ StringToNumber "1e309" = Infinity false
  /\ StringToNumber "-1.5e3" = of_Z (- 1500).
Proof. vm_compute. repeat split. Qed.

Lemma number_sub_of_Z (a b : Z) :
  Z.abs (a - b) <= 2 ^ 53 -> number_sub (of_Z a) (of_Z b) = of_Z (a - b).
Proof.
  intros H. unfold of_Z at 1 2. unfold number_sub.
  replace (inject_Z a - inject_Z b)%Q with (inject_Z (a - b)).
  - apply binary64_integer, H.
  - unfold Qminus, Qplus, Qopp, inject_Z. cbn [Qnum Qden Pos.mul]. f_equal. lia.
Qed.


Lemma is_strictly_0_spec (v : value) :
  is_strictly_0 v = true <-> exists q, v = Num (Fin q) /\ (q == 0)%Q.
Proof.
  unfold is_strictly_0, number_eqb, of_Z. split.
  - destruct v as [ | | | [ | | q] | | | ]; try discriminate.
    intros H. exists q. split; [reflexivity |]. now apply Qeq_bool_iff.
  - intros [q [-> Hq]]. now apply Qeq_bool_iff.
Qed.

(** ** [quota] *)

Lemma fetch_json_ok (req : Request) (w : World) (tr : Trace) (body : string) (data : value) :
  respond w tr req = Some body ->
  JSON_parse w body = Some data ->
  fetch_json req w tr = (Ok data, (tr ++ [(req, Some body)])%list).
Proof.
  intros Hr Hp. unfold fetch_json, bind, fetch, parse. rewrite Hr, Hp. reflexivity.
Qed.

Lemma is_strictly_0_not_nullish (data : value) :
  is_strictly_0 (get data "errno") = true -> is_nullish data = false.
Proof.
  destruct data; simpl; try reflexivity; discriminate.
Qed.

(** C6: a quota response with [errno] zero, [used = U] and [total = T]
    makes [quota] return [{used: U, total: T, free: T - U}], the
    subtraction being JavaScript's.  For integers [u] and [t] that are
    doubles and differ by at most [2^53], [free] is the integer [t - u]
    exactly. *)
Theorem quota_free_is_total_minus_used
    (this : TeraBox) (w : World) (tr : Trace) (body : string) (data U T : value) :
  respond w tr (POST_quota this) = Some body ->
  JSON_parse w body = Some data ->
  is_strictly_0 (get data "errno") = true ->
  get data "used" = U ->
  get data "total" = T ->
  fst (TeraBox_quota this w tr)
  = Ok {| Quota.used := U; Quota.total := T; Quota.free := JS.sub T U |}
  /\ (forall u t : Z,
        is_double u -> is_double t -> Z.abs (t - u) <= 2 ^ 53 ->
        U = Num (of_Z u) -> T = Num (of_Z t) ->
        JS.sub T U = of_Z (t - u)).
Proof.
  intros Hr Hp H0 HU HT. split.
  - unfold TeraBox_quota, bind.
    rewrite (fetch_json_ok _ w tr body data Hr Hp).
    unfold if_errno_0, bind, prop.
    rewrite (is_strictly_0_not_nullish data H0). unfold ret at 1.
    rewrite H0, HU, HT. reflexivity.
  - intros u t _ _ Hd -> ->. apply number_sub_of_Z, Hd.
Qed.

Lemma quota_free_is_total_minus_used_witness :
  fst (run (TeraBox_quota sample_client) quota_World)
  = Ok {| Quota.used := Num (of_Z 3); Quota.total := Num (of_Z 10);
          Quota.free := JS.sub (Num (of_Z 10)) (Num (of_Z 3)) |}
  /\ JS.sub (Num (of_Z 10)) (Num (of_Z 3)) = of_Z 7.
Proof.
  destruct (quota_free_is_total_minus_used sample_client quota_World []
              (JSON_text quota_envelope) _ (Num (of_Z 3)) (Num (of_Z 10))
              eq_refl eq_refl eq_refl eq_refl eq_refl) as [Hrun Hfree].
  split; [exact Hrun |].
  apply (Hfree 3 10);
    [reflexivity | reflexivity | vm_compute; discriminate | reflexivity | reflexivity].
Defined.

(** ** The constructor *)

Lemma or_defaulted (given : value) (dflt : string) :
  defaulted given dflt (JS.or given (Str dflt)).
Proof.
  unfold defaulted, JS.or. destruct (ToBoolean given); reflexivity.
Qed.

Lemma string_truthy (s : string) : s <> "" -> ToBoolean (Str s) = true.
Proof.
  intros H. simpl. destruct (String.eqb_spec s ""); [contradiction | reflexivity].
Qed.

Lemma has_ndus_truthy (credentials : value) (s : string) :
  get credentials "ndus" = Str s -> ToBoolean credentials = true.
Proof.
  destruct credentials; simpl; try discriminate; reflexivity.
Qed.

(** The claim as the specification words it fails twice: an empty string
    is a string session token and is rejected, and a client built from a
    token alone has no browser id. *)
Lemma string_token_rejected_and_browserId_undefaulted :
  (typeof (get (Obj [("ndus", Str "")]) "ndus") = "string"
   /\ TeraBox_constructor (Obj [("ndus", Str "")])
      = Throw (ERR_INVALID_ARG_TYPE "credentials.ndus" "string" "string"))
  /\ (exists c, TeraBox_constructor (Obj [("ndus", Str "tok")]) = Ok c
                /\ Credentials.browserId c = Undefined).
Proof.
  split; [split; reflexivity |]. eexists. split; reflexivity.
Qed.

(** C7, amended: a missing (falsy) credentials object, a missing or empty
    session token, or a token that is not a string makes the constructor
    throw the configuration error, and being a pure function it makes no
    request; with a non-empty string token it succeeds, stores the token,
    gives [lang], [appId], [host], [blockId], [userAgent] and [jsToken]
    their defaults when the caller's value is missing or falsy, and
    stores [browserId] as given. *)
Theorem constructor_needs_nonempty_string_token (credentials : value) :
  (ToBoolean credentials = false
   \/ ToBoolean (get credentials "ndus") = false
   \/ typeof (get credentials "ndus") <> "string" ->
   TeraBox_constructor credentials
   = Throw (ERR_INVALID_ARG_TYPE "credentials.ndus" "string"
              (typeof (optional_get credentials "ndus"))))
  /\ (forall token : string,
        token <> "" ->
        get credentials "ndus" = Str token ->
        exists c,
          TeraBox_constructor credentials = Ok c
          /\ Credentials.ndus c = Str token
          /\ defaulted (get credentials "lang") Defaults.lang (Credentials.lang c)
          /\ defaulted (get credentials "appId") Defaults.appId (Credentials.appId c)
          /\ defaulted (get credentials "host") Defaults.host (Credentials.host c)
          /\ defaulted (get credentials "blockId") Defaults.blockId (Credentials.blockId c)
          /\ defaulted (get credentials "userAgent") Defaults.userAgent (Credentials.userAgent c)
          /\ defaulted (get credentials "jsToken") Defaults.jsToken (Credentials.jsToken c)
          /\ Credentials.browserId c = get credentials "browserId").
Proof.
  split.
  - intros H. unfold TeraBox_constructor, JS.not.
    destruct (ToBoolean credentials); [| reflexivity].
    destruct (ToBoolean (get credentials "ndus")); [| reflexivity].
    destruct (String.eqb_spec (typeof (get credentials "ndus")) "string") as [E | E];
      [| reflexivity].
    destruct H as [H | [H | H]]; try discriminate. contradiction.
  - intros token Hne Hndus. unfold TeraBox_constructor, JS.not.
    rewrite (has_ndus_truthy credentials token Hndus), Hndus.
    rewrite (string_truthy token Hne). simpl.
    eexists. split; [reflexivity |]. simpl.
    repeat split; try apply or_defaulted.
Qed.

Lemma constructor_needs_nonempty_string_token_witness :
  TeraBox_constructor Undefined
  = Throw (ERR_INVALID_ARG_TYPE "credentials.ndus" "string" "undefined")
  /\ exists c,
       TeraBox_constructor (Obj [("ndus", Str "tok"); ("lang", Str "ko")]) = Ok c
       /\ Credentials.lang c = Str "ko"
       /\ Credentials.host c = Str Defaults.host.
Proof.
  split.
  - apply (proj1 (constructor_needs_nonempty_string_token Undefined)).
    left. reflexivity.
  - destruct (proj2 (constructor_needs_nonempty_string_token
                       (Obj [("ndus", Str "tok"); ("lang", Str "ko")]))
                "tok" ltac:(discriminate) eq_refl)
      as [c [Hc [_ [Hlang [_ [Hhost _]]]]]].
    exists c. split; [exact Hc |]. split; [exact Hlang | exact Hhost].
Defined.

(** ** Traces of the monad's primitives *)

Lemma fetch_json_trace (req : Request) (w : World) (tr : Trace) :
  snd (fetch_json req w tr) = (tr ++ [(req, respond w tr req)])%list.
Proof.
  unfold fetch_json, bind, fetch, parse.
  destruct (respond w tr req) as [body |]; simpl; [| reflexivity].
  destruct (JSON_parse w body); reflexivity.
Qed.

Lemma if_errno_0_pure {A} (data : value) (a : A) (w : World) (tr : Trace) :
  snd (if_errno_0 data (ret a) w tr) = tr.
Proof.
  unfold if_errno_0, bind, prop.
  destruct (is_nullish data); [reflexivity |]. unfold ret at 1.
  destruct (is_strictly_0 (get data "errno")); reflexivity.
Qed.

(** A non-zero [errno] is thrown as [ERR_API] with that code and the
    message, or the empty string for a missing one. *)
Lemma if_errno_0_throws {A} (data : value) (ok : M A) (w : World) (tr : Trace) :
  is_nullish data = false ->
  is_strictly_0 (get data "errno") = false ->
  if_errno_0 data ok w tr
  = (Throw (ERR_API (get data "errno") (JS.or (get data "errmsg") (Str ""))), tr).
Proof.
  intros Hn H0. unfold if_errno_0, bind, prop. rewrite Hn. unfold ret.
  rewrite H0. reflexivity.
Qed.

(** ** [move] *)

Lemma move_entry_encodes (entry : string * value) :
  target_is_string entry = true ->
  exists r, move_entry entry = Ok r /\ encodes entry r.
Proof.
  destruct entry as [sourcePath targetPath]. unfold target_is_string. simpl.
  destruct targetPath as [ | | | | target | | ]; try discriminate. intros _.
  eexists. split; [reflexivity |].
  exists target. simpl. repeat split.
  - intros ->. reflexivity.
  - intros Hne. destruct (String.eqb_spec (Path.dirname target) "/");
      [contradiction | reflexivity].
Qed.

Lemma mapM_move_entry (entries : list (string * value)) :
  forallb target_is_string entries = true ->
  exists filelist,
    mapM move_entry entries = Ok filelist /\ Forall2 encodes entries filelist.
Proof.
  induction entries as [| entry entries IH]; simpl; intros H.
  - exists []. split; [reflexivity | constructor].
  - apply andb_prop in H. destruct H as [He Hrest].
    destruct (move_entry_encodes entry He) as [r [Hr Henc]].
    destruct (IH Hrest) as [filelist [Hfl Hall]].
    exists (r :: filelist). rewrite Hr, Hfl. split; [reflexivity |].
    constructor; assumption.
Qed.

(** C3: [move] sends one record per entry of the mapping, in order; the
    record's [dest] is the empty string when the destination's parent
    directory is ["/"] and that parent directory otherwise, and its
    [newname] is the destination's basename. *)
Theorem move_encodes_root_parent_as_empty
    (this : TeraBox) (w : World) (tr : Trace) (files : list (string * value)) :
  forallb target_is_string files = true ->
  exists filelist,
    snd (TeraBox_move this (Obj files) w tr)
    = (tr ++ [(POST_filemanager_move this filelist,
               respond w tr (POST_filemanager_move this filelist))])%list
    /\ Forall2 encodes files filelist.
Proof.
  intros H. destruct (mapM_move_entry files H) as [filelist [Hfl Hall]].
  exists filelist. split; [| exact Hall].
  unfold TeraBox_move. simpl. unfold bind at 1. unfold lift at 1.
  unfold bind at 1. unfold lift at 1. rewrite Hfl.
  unfold bind.
  pose proof (fetch_json_trace (POST_filemanager_move this filelist) w tr) as Ht.
  destruct (fetch_json (POST_filemanager_move this filelist) w tr) as [[data | e] tr'];
    simpl in Ht; subst tr'; [| reflexivity].
  apply if_errno_0_pure.
Qed.

Lemma move_encodes_root_parent_as_empty_witness :
  exists filelist,
    snd (run (TeraBox_move sample_client
                (Obj [("/a/b.txt", Str "/c.txt"); ("/x", Str "/d/e.txt")])) move_World)
    = [(POST_filemanager_move sample_client filelist, Some (JSON_text ok_envelope))]
    /\ Forall2 encodes [("/a/b.txt", Str "/c.txt"); ("/x", Str "/d/e.txt")] filelist.
Proof.
  exact (move_encodes_root_parent_as_empty sample_client move_World []
           [("/a/b.txt", Str "/c.txt"); ("/x", Str "/d/e.txt")] eq_refl).
Defined.

Example move_to_root :
  run (TeraBox_move sample_client
         (Obj [("/a/b.txt", Str "/c.txt"); ("/x", Str "/d/e.txt")])) move_World
  = (Ok true,
     [(POST_filemanager_move sample_client
         [{| MoveEntry.path := "/a/b.txt"; MoveEntry.dest := ""; MoveEntry.newname := "c.txt" |};
          {| MoveEntry.path := "/x"; MoveEntry.dest := "/d"; MoveEntry.newname := "e.txt" |}],
       Some (JSON_text ok_envelope))]).
Proof. reflexivity. Qed.

(** ** [upload] *)

Lemma fetch_json_eq (req : Request) (w : World) (tr : Trace) :
  fetch_json req w tr
  = (match respond w tr req with
     | Some body =>
         match JSON_parse w body with
         | Some data => Ok data
         | None => Throw SyntaxError
         end
     | None => Throw FetchRejected
     end,
     (tr ++ [(req, respond w tr req)])%list).
Proof.
  unfold fetch_json, bind, fetch, parse.
  destruct (respond w tr req) as [body |]; reflexivity.
Qed.

Lemma get_nullish (data : value) (k : string) :
  is_nullish data = true -> get data k = Undefined.
Proof. destruct data; simpl; try discriminate; reflexivity. Qed.

Lemma stopped_after (w : World) (tr : Trace) (new : list Event) (e : Error) :
  upload_steps w new -> upload_outcome w tr (Throw e, (tr ++ new)%list).
Proof.
  intros H. exists new. split; [reflexivity |]. split; [exact H | discriminate].
Qed.

Lemma upload_shape (this : TeraBox) (filePath : value) (fileBody : Buffer)
    (w : World) (tr : Trace) :
  upload_outcome w tr (TeraBox_upload this filePath fileBody w tr).
Proof.
  unfold TeraBox_upload.
  destruct filePath as [ | | | | p | | ];
    try (rewrite <- (app_nil_r tr) at 2; apply stopped_after; constructor).
  cbn [path_dirname]. unfold bind at 1. unfold lift at 1.
  unfold bind at 1. unfold now_seconds at 1.
  set (targetPath := if negb (endsWith (Path.dirname p) "/") then _ else _).
  set (req1 := POST_precreate _ _ _ _ _).
  unfold bind at 1. rewrite (fetch_json_eq req1 w tr).
  set (ev1 := (req1, respond w tr req1)).
  assert (Hpre : upload_steps w [ev1]) by (constructor; reflexivity).
  destruct (respond w tr req1) as [body1 |] eqn:Hr1; [| now apply stopped_after].
  destruct (JSON_parse w body1) as [data1 |] eqn:Hp1; [| now apply stopped_after].
  unfold bind at 1. unfold prop at 1.
  destruct (is_nullish data1) eqn:Hn1; [now apply stopped_after |].
  unfold ret at 1.
  destruct (is_strictly_0 (get data1 "errno")) eqn:H01; cbn [negb];
    [| now apply stopped_after].
  assert (Hok1 : precreate_returned_0 w ev1 = true).
  { unfold precreate_returned_0, returned. subst ev1. cbn [fst snd].
    rewrite Hp1, H01. reflexivity. }
  set (req2 := POST_superfile2 _ _ _ _ _).
  unfold bind at 1. rewrite (fetch_json_eq req2 w _).
  set (tr1 := (tr ++ [ev1])%list).
  set (ev2 := (req2, respond w tr1 req2)).
  assert (Htr2 : ((tr1 ++ [ev2]) = tr ++ [ev1; ev2])%list).
  { subst tr1. rewrite <- app_assoc. reflexivity. }
  assert (Htra : upload_steps w [ev1; ev2]) by (constructor; [assumption | reflexivity]).
  destruct (respond w tr1 req2) as [body2 |] eqn:Hr2;
    [| rewrite Htr2; now apply stopped_after].
  destruct (JSON_parse w body2) as [data2 |] eqn:Hp2;
    [| rewrite Htr2; now apply stopped_after].
  unfold bind at 1. unfold prop at 1.
  destruct (is_nullish data2) eqn:Hn2; [rewrite Htr2; now apply stopped_after |].
  unfold ret at 1. unfold JS.not.
  destruct (ToBoolean (get data2 "md5")) eqn:Hmd5; cbn [negb];
    [| rewrite Htr2; now apply stopped_after].
  assert (Hok2 : transfer_returned_checksum w ev2 = true).
  { unfold transfer_returned_checksum, returned. subst ev2. cbn [fst snd].
    rewrite Hp2, Hmd5. reflexivity. }
  unfold bind at 1. unfold now_seconds at 1.
  set (req3 := POST_create _ _ _ _ _ _ _).
  unfold bind at 1. rewrite (fetch_json_eq req3 w _).
  set (ev3 := (req3, respond w (tr1 ++ [ev2])%list req3)).
  assert (Htr3 : (((tr1 ++ [ev2]) ++ [ev3]) = tr ++ [ev1; ev2; ev3])%list).
  { rewrite Htr2. rewrite <- app_assoc. reflexivity. }
  assert (Hfin : upload_steps w [ev1; ev2; ev3])
    by (constructor; [assumption | assumption | reflexivity]).
  rewrite Htr3. clearbody ev3.
  assert (Hsnd : forall r : Result TeraBoxDirent.t * Trace,
             snd r = (tr ++ [ev1; ev2; ev3])%list -> upload_outcome w tr r).
  { intros r Hr. exists [ev1; ev2; ev3]. split; [exact Hr |].
    split; [assumption | reflexivity]. }
  apply Hsnd.
  destruct (respond w (tr1 ++ [ev2])%list req3) as [body3 |]; [| reflexivity].
  destruct (JSON_parse w body3) as [data3 |]; [| reflexivity].
  unfold bind, prop. destruct (is_nullish data3); [reflexivity |].
  unfold ret. destruct (is_strictly_0 (get data3 "errno")); reflexivity.
Qed.

Lemma precreate_not_transfer (req : Request) :
  is_precreate req = true -> is_transfer req = false.
Proof. destruct req; simpl; congruence. Qed.

Lemma precreate_not_finalize (req : Request) :
  is_precreate req = true -> is_finalize req = false.
Proof. destruct req; simpl; congruence. Qed.

Lemma transfer_not_finalize (req : Request) :
  is_transfer req = true -> is_finalize req = false.
Proof. destruct req; simpl; congruence. Qed.

Lemma precreate_returned_0_is_precreate (w : World) (ev : Event) :
  precreate_returned_0 w ev = true -> is_precreate (fst ev) = true.
Proof. unfold precreate_returned_0. intros H. now apply andb_prop in H. Qed.

Lemma transfer_returned_checksum_is_transfer (w : World) (ev : Event) :
  transfer_returned_checksum w ev = true -> is_transfer (fst ev) = true.
Proof. unfold transfer_returned_checksum. intros H. now apply andb_prop in H. Qed.

(** Splits [before ++ x :: after = l] for a list [l] given element by
    element. *)
Ltac split_at before H :=
  repeat (destruct before as [| ? before];
          [ cbn in H; inversion H; subst; clear H
          | cbn in H; try discriminate H;
            let H' := fresh in
            injection H as ? H'; subst; rename H' into H ]);
  try (destruct before; discriminate H).

(** A request is of one kind only. *)
Ltac two_kinds :=
  match goal with
  | Hp : is_precreate ?r = true, Ht : is_transfer ?r = true |- _ =>
      rewrite (precreate_not_transfer _ Hp) in Ht; discriminate Ht
  | Hp : is_precreate ?r = true, Hf : is_finalize ?r = true |- _ =>
      rewrite (precreate_not_finalize _ Hp) in Hf; discriminate Hf
  | Ht : is_transfer ?r = true, Hf : is_finalize ?r = true |- _ =>
      rewrite (transfer_not_finalize _ Ht) in Hf; discriminate Hf
  end.

(** C5: in every run of [upload] the transfer request is made only after
    the precreate request returned [errno] zero, and the finalize request
    only after that and after the transfer request returned a checksum;
    when precreate does not return [errno] zero, it is the only request
    made and [upload] throws. *)
Theorem upload_steps_in_sequence (this : TeraBox) (filePath : value) (fileBody : Buffer)
    (w : World) (tr : Trace) :
  exists new,
    snd (TeraBox_upload this filePath fileBody w tr) = (tr ++ new)%list
    /\ (forall before t after,
          new = (before ++ t :: after)%list ->
          is_transfer (fst t) = true ->
          exists p, before = [p] /\ precreate_returned_0 w p = true)
    /\ (forall before f after,
          new = (before ++ f :: after)%list ->
          is_finalize (fst f) = true ->
          exists p t,
            before = [p; t]
            /\ precreate_returned_0 w p = true
            /\ transfer_returned_checksum w t = true)
    /\ (forall p rest,
          new = p :: rest ->
          is_precreate (fst p) = true
          /\ (precreate_returned_0 w p = false ->
              rest = []
              /\ is_Ok (fst (TeraBox_upload this filePath fileBody w tr)) = false)).
Proof.
  destruct (upload_shape this filePath fileBody w tr) as [new [Hsnd [Hsteps Hok]]].
  exists new. split; [exact Hsnd |].
  destruct Hsteps as [ | p Hp | p t Hp Ht | p t f Hp Ht Hf ];
    try pose proof (precreate_returned_0_is_precreate w p Hp) as Hp';
    try pose proof (transfer_returned_checksum_is_transfer w t Ht) as Ht';
    (split; [| split]);
    try (intros before x after H Hx; split_at before H; solve [two_kinds | eauto]).
  - discriminate.
  - intros p' rest H. injection H as <- <-. split; [exact Hp |].
    intros _. split; [reflexivity |].
    destruct (is_Ok _); [specialize (Hok eq_refl); discriminate | reflexivity].
  - intros p' rest H. injection H as <- <-. split; [exact Hp' |]. congruence.
  - intros p' rest H. injection H as <- <-. split; [exact Hp' |]. congruence.
Qed.

Example upload_run :
  snd (run (TeraBox_upload sample_client (Str "/a/f.mp4") three_bytes)
         (upload_World precreate_envelope))
  = [(POST_precreate sample_client "/a/f.mp4" "/a/" 3 1700000000,
      Some (JSON_text precreate_envelope));
     (POST_superfile2 sample_client "/a/f.mp4" (Str "N1") three_bytes "f.mp4",
      Some (JSON_text transfer_response));
     (POST_create sample_client "/a/f.mp4" 3 (Str "N1") "/a/" (Str "9e107d9d") 1700000000,
      Some (JSON_text create_envelope))]
  /\ is_Ok (fst (run (TeraBox_upload sample_client (Str "/a/f.mp4") three_bytes)
                   (upload_World precreate_envelope))) = true.
Proof. split; reflexivity. Qed.

Example upload_refused_run :
  run (TeraBox_upload sample_client (Str "/a/f.mp4") three_bytes)
    (upload_World refused_envelope)
  = (Throw (ERR_API (Num (of_Z 2)) (Str "denied")),
     [(POST_precreate sample_client "/a/f.mp4" "/a/" 3 1700000000,
       Some (JSON_text refused_envelope))]).
Proof. reflexivity. Qed.

Lemma upload_steps_in_sequence_witness :
  snd (run (TeraBox_upload sample_client (Str "/a/f.mp4") three_bytes)
         (upload_World refused_envelope))
  = [(POST_precreate sample_client "/a/f.mp4" "/a/" 3 1700000000,
      Some (JSON_text refused_envelope))]
  /\ is_Ok (fst (run (TeraBox_upload sample_client (Str "/a/f.mp4") three_bytes)
                   (upload_World refused_envelope))) = false.
Proof.
  destruct (upload_steps_in_sequence sample_client (Str "/a/f.mp4") three_bytes
              (upload_World refused_envelope) [])
    as [new [Hsnd [_ [_ Hfirst]]]].
  split; [reflexivity |].
  cbn in Hsnd. symmetry in Hsnd.
  exact (proj2 (proj2 (Hfirst _ [] Hsnd) eq_refl)).
Defined.

(** ** The error envelope *)

(** [quota], [list], [move], [delete] and the home-info request of
    [download] throw [ERR_API] with the code and the message of a response
    whose [errno] is not zero. *)
Section NonZeroEnvelope.

Variables (this : TeraBox) (w : World) (tr : Trace).
Variables (body : string) (data : value).
Hypothesis parsed : JSON_parse w body = Some data.
Hypothesis not_nullish : is_nullish data = false.
Hypothesis nonzero : is_strictly_0 (get data "errno") = false.

Lemma fetch_json_then_throws {A} (req : Request) (ok : value -> M A) :
  respond w tr req = Some body ->
  fst ((let* d := fetch_json req in if_errno_0 d (ok d)) w tr) = Throw (envelope_error data).
Proof.
  intros Hr. unfold bind at 1. rewrite fetch_json_eq, Hr, parsed.
  rewrite if_errno_0_throws by assumption. reflexivity.
Qed.

Lemma fetchHome_throws_ERR_API :
  respond w tr (POST_home_info this) = Some body ->
  fst (TeraBox_fetchHome this w tr) = Throw (envelope_error data).
Proof. apply fetch_json_then_throws. Qed.

Lemma move_throws_ERR_API (files : list (string * value)) (filelist : list MoveEntry.t) :
  mapM move_entry files = Ok filelist ->
  respond w tr (POST_filemanager_move this filelist) = Some body ->
  fst (TeraBox_move this (Obj files) w tr) = Throw (envelope_error data).
Proof.
  intros Hfl Hr. unfold TeraBox_move. cbn [typeof_is_not typeof String.eqb negb].
  change (typeof_is_not (Obj files) "object") with false. cbn [Object_entries].
  unfold bind at 1, lift at 1. unfold bind at 1, lift at 1. rewrite Hfl.
  now apply fetch_json_then_throws.
Qed.

Lemma quota_throws_ERR_API :
  respond w tr (POST_quota this) = Some body ->
  fst (TeraBox_quota this w tr) = Throw (envelope_error data).
Proof. apply fetch_json_then_throws. Qed.

Lemma list_throws_ERR_API (directory : value) :
  respond w tr (POST_list this (default directory (Str "/"))) = Some body ->
  fst (TeraBox_list this directory w tr) = Throw (envelope_error data).
Proof. apply fetch_json_then_throws. Qed.

Lemma delete_throws_ERR_API (paths : list string) :
  respond w tr (POST_filemanager_delete this paths) = Some body ->
  fst (TeraBox_delete this (Many (map (fun p => Plain (Str p)) paths)) w tr)
  = Throw (envelope_error data).
Proof.
  intros Hr. unfold TeraBox_delete. cbn [as_array].
  assert (Hmap : mapM delete_filePath (map (fun p => Plain (Str p)) paths) = Ok paths).
  { clear. induction paths as [| p ps IH]; simpl; [reflexivity |].
    rewrite IH. reflexivity. }
  unfold bind at 1. unfold lift at 1. rewrite Hmap.
  now apply fetch_json_then_throws.
Qed.

End NonZeroEnvelope.

(** ** [stream] *)

(** Whatever the response is, and whatever it parses to, [stream] returns
    its text: the [throw] of the non-zero branch sits inside the [try]
    whose [catch] returns the text. *)
Lemma stream_returns_the_text (this : TeraBox) (filePath : string) (type : value)
    (w : World) (tr : Trace) (body : string) :
  respond w tr (POST_streaming this filePath (default type (Str "M3U8_FLV_264_480")))
  = Some body ->
  fst (TeraBox_stream this (Str filePath) type w tr) = Ok body.
Proof.
  intros Hr. unfold TeraBox_stream, bind at 1, fetch. rewrite Hr.
  destruct (startsWith body "{"); [| reflexivity].
  unfold try_catch, bind, parse.
  destruct (JSON_parse w body) as [json |]; [| reflexivity].
  unfold prop. destruct (is_nullish json); [reflexivity |].
  unfold ret at 1. destruct (is_strictly_0 (get json "errno")); reflexivity.
Qed.

(** C1, where the code departs from it: the response text is the JSON
    envelope [{errno: 2, errmsg: 'denied'}], and [stream] returns the text
    instead of throwing [ERR_API] with code 2 and message ['denied'];
    [quota] given the same response does throw it. *)
Theorem stream_swallows_ERR_API :
  JSON_text refused_envelope
  = "{" ++ dq ++ "errno" ++ dq ++ ":2," ++ dq ++ "errmsg" ++ dq ++ ":"
        ++ dq ++ "denied" ++ dq ++ "}"
  /\ startsWith (JSON_text refused_envelope) "{" = true
  /\ JSON_parse refusing_World (JSON_text refused_envelope)
     = Some refused_envelope
  /\ fst (run (TeraBox_stream sample_client (Str "/a/f.mp4") Undefined) refusing_World)
     = Ok (JSON_text refused_envelope)
  /\ fst (run (TeraBox_quota sample_client) refusing_World)
     = Throw (ERR_API (Num (of_Z 2)) (Str "denied")).
Proof. repeat split. Qed.

(** ** [Number] of a decimal rendering *)

Section NumberOfDecimal.













End NumberOfDecimal.

(** ** Computations that make no request *)

Create HintDb silent.

Lemma silent_ret {A} (a : A) : silent (ret a).
Proof. intros w tr. reflexivity. Qed.

Lemma silent_throw {A} (e : Error) : silent (@throw A e).
Proof. intros w tr. reflexivity. Qed.

Lemma silent_lift {A} (r : Result A) : silent (lift r).
Proof. intros w tr. reflexivity. Qed.

Lemma silent_prop (v : value) (k : string) : silent (prop v k).
Proof. intros w tr. unfold prop. destruct (is_nullish v); reflexivity. Qed.

Lemma silent_parse (text : string) : silent (parse text).
Proof. intros w tr. reflexivity. Qed.

Lemma silent_eval_sign2 (a b c : value) : silent (eval_sign2 a b c).
Proof. intros w tr. reflexivity. Qed.

Lemma silent_bind {A B} (m : M A) (k : A -> M B) :
  silent m -> (forall a, silent (k a)) -> silent (bind m k).
Proof.
  intros Hm Hk w tr. unfold bind. specialize (Hm w tr).
  destruct (m w tr) as [[a | e] tr']; simpl in Hm; subst tr'; [apply Hk | reflexivity].
Qed.

Lemma silent_if {A} (b : bool) (m1 m2 : M A) :
  silent m1 -> silent m2 -> silent (if b then m1 else m2).
Proof. destruct b; auto. Qed.

Lemma silent_throw_ERR_API {A} (data : value) : silent (@throw_ERR_API A data).
Proof. apply silent_throw. Qed.

Lemma silent_if_errno_0 {A} (data : value) (ok : M A) :
  silent ok -> silent (if_errno_0 data ok).
Proof.
  intros Hok. unfold if_errno_0. apply silent_bind; [apply silent_prop |].
  intros errno. apply silent_if; [exact Hok | apply silent_throw_ERR_API].
Qed.

Lemma silent_map_array {B} (name : string) (v : value) (f : value -> Result B) :
  silent (map_array name v f).
Proof. destruct v; simpl; first [apply silent_lift | apply silent_throw]. Qed.

#[local] Hint Resolve silent_ret silent_throw silent_lift silent_prop silent_parse
  silent_eval_sign2 silent_if silent_throw_ERR_API silent_if_errno_0
  silent_map_array : silent.

(** After a request whose continuation is silent, the trace is longer by
    that request. *)
Lemma fetch_json_then_silent {B} (req : Request) (k : value -> M B) (w : World) (tr : Trace) :
  (forall data, silent (k data)) ->
  snd ((let* data := fetch_json req in k data) w tr)
  = (tr ++ [(req, respond w tr req)])%list.
Proof.
  intros Hk. unfold bind. pose proof (fetch_json_trace req w tr) as Ht.
  destruct (fetch_json req w tr) as [[data | e] tr']; simpl in Ht; subst tr';
    [apply Hk | reflexivity].
Qed.

Lemma fetchHome_trace (this : TeraBox) (w : World) (tr : Trace) :
  snd (TeraBox_fetchHome this w tr)
  = (tr ++ [(POST_home_info this, respond w tr (POST_home_info this))])%list.
Proof.
  apply fetch_json_then_silent. intros data. auto with silent.
Qed.

Lemma sign_trace (this : TeraBox) (w : World) (tr : Trace) :
  snd (TeraBox_sign this w tr)
  = (tr ++ [(POST_home_info this, respond w tr (POST_home_info this))])%list.
Proof.
  unfold TeraBox_sign, bind at 1. pose proof (fetchHome_trace this w tr) as Ht.
  destruct (TeraBox_fetchHome this w tr) as [[home | e] tr']; simpl in Ht; subst tr';
    [| reflexivity].
  match goal with
  | |- snd (?m w ?t) = _ => assert (Hs : silent m); [| apply Hs]
  end.
  apply silent_bind; [auto with silent |]. intros e.
  apply silent_bind; auto with silent.
Qed.

(** ** [download] *)


Example sample_dirent_constructed :
  TeraBoxDirent.constructor sample_record sample_client = Ok sample_dirent.
Proof. reflexivity. Qed.

(** *** Strings *)

Lemma append_assoc (s1 s2 s3 : string) : (s1 ++ s2) ++ s3 = s1 ++ (s2 ++ s3).
Proof. induction s1 as [| c s1 IH]; simpl; [reflexivity | now rewrite IH]. Qed.

Lemma append_nil_r (s1 : string) : s1 ++ "" = s1.
Proof. induction s1 as [| c s1 IH]; simpl; [reflexivity | now rewrite IH]. Qed.

Lemma length_append (s1 s2 : string) :
  String.length (s1 ++ s2) = (String.length s1 + String.length s2)%nat.
Proof. induction s1 as [| c s1 IH]; simpl; [reflexivity | now rewrite IH]. Qed.

Lemma list_ascii_of_string_append (s1 s2 : string) :
  list_ascii_of_string (s1 ++ s2)
  = (list_ascii_of_string s1 ++ list_ascii_of_string s2)%list.
Proof. induction s1 as [| c s1 IH]; simpl; [reflexivity | now rewrite IH]. Qed.

(** *** The loop, chunk by chunk *)

Lemma skipn_nth (e : list Z) (i : nat) :
  (i < List.length e)%nat ->
  skipn i e = Sign.charCodeAt e i :: skipn (S i) e.
Proof.
  revert i. induction e as [| c e IH]; intros i Hi; simpl in Hi; [lia |].
  destruct i as [| i]; [reflexivity |].
  rewrite !skipn_cons. unfold Sign.charCodeAt in *. cbn [nth]. apply IH. lia.
Qed.

Lemma loop_chunks (fuel : nat) :
  forall (e : list Z) (i : nat) (t : string),
    (i <= List.length e)%nat ->
    (List.length e - i < fuel)%nat ->
    Sign.loop fuel e (List.length e) i t = t ++ chunks (skipn i e).
Proof.
  induction fuel as [| fuel IH]; intros e i t Hi Hfuel; [lia |].
  cbn [Sign.loop]. destruct (Nat.ltb_spec i (List.length e)) as [Hlt | Hge].
  - rewrite (skipn_nth e i Hlt). cbn [chunks].
    destruct (Nat.eqb_spec (S i) (List.length e)) as [E1 | N1].
    + rewrite skipn_all2 by lia. rewrite !append_assoc. reflexivity.
    + rewrite (skipn_nth e (S i)) by lia.
      destruct (Nat.eqb_spec (S (S i)) (List.length e)) as [E2 | N2].
      * rewrite skipn_all2 by lia. rewrite !append_assoc. reflexivity.
      * rewrite (skipn_nth e (S (S i))) by lia.
        rewrite IH by lia. rewrite !append_assoc. reflexivity.
  - rewrite skipn_all2 by lia. cbn [chunks]. now rewrite append_nil_r.
Qed.

(** The loop ends within its fuel, with the chunks of the whole input. *)
Lemma encode_chunks (e : list Z) : Sign.encode e = chunks e.
Proof.
  unfold Sign.encode. rewrite loop_chunks by lia. reflexivity.
Qed.

(** *** Bytes, exhaustively *)

Lemma in_all_bytes (a : Z) : is_byte a -> In a all_bytes.
Proof.
  intros H. unfold all_bytes. apply in_map_iff. exists (Z.to_nat a).
  unfold is_byte in H. split; [lia | apply in_seq; lia].
Qed.

Lemma for_all_bytes (P : Z -> bool) :
  forallb P all_bytes = true -> forall a, is_byte a -> P a = true.
Proof.
  intros H a Ha. rewrite forallb_forall in H. apply H. now apply in_all_bytes.
Qed.

Lemma for_all_byte_pairs (P : Z -> Z -> bool) :
  forallb (fun a => forallb (P a) all_bytes) all_bytes = true ->
  forall a b, is_byte a -> is_byte b -> P a b = true.
Proof.
  intros H a b Ha Hb.
  apply (for_all_bytes (P a)); [| exact Hb].
  apply (for_all_bytes (fun a => forallb (P a) all_bytes)); assumption.
Qed.

(** The four characters of a full group, the three of a final pair and
    the two of a final single octet, as the encoder computes them with
    masks and shifts and as divisions give them. *)
Lemma first_char (a : Z) :
  is_byte a ->
  Sign.charAt Sign.s (Z.shiftr (Z.land 255 a) 2) = char_of (a / 4).
Proof.
  intros Ha. apply String.eqb_eq.
  apply (for_all_bytes
           (fun a => String.eqb (Sign.charAt Sign.s (Z.shiftr (Z.land 255 a) 2))
                       (char_of (a / 4)))); [vm_compute; reflexivity | exact Ha].
Qed.

Lemma second_char (a r : Z) :
  is_byte a -> is_byte r ->
  Sign.charAt Sign.s
    (Z.lor (Z.shiftl (Z.land 3 (Z.land 255 a)) 4) (Z.shiftr (Z.land 240 r) 4))
  = char_of (a mod 4 * 16 + r / 16).
Proof.
  intros Ha Hr. apply String.eqb_eq.
  apply (for_all_byte_pairs
           (fun a r =>
              String.eqb
                (Sign.charAt Sign.s
                   (Z.lor (Z.shiftl (Z.land 3 (Z.land 255 a)) 4) (Z.shiftr (Z.land 240 r) 4)))
                (char_of (a mod 4 * 16 + r / 16))));
    [vm_compute; reflexivity | exact Ha | exact Hr].
Qed.

Lemma third_char (r o : Z) :
  is_byte r -> is_byte o ->
  Sign.charAt Sign.s
    (Z.lor (Z.shiftl (Z.land 15 r) 2) (Z.shiftr (Z.land 192 o) 6))
  = char_of (r mod 16 * 4 + o / 64).
Proof.
  intros Hr Ho. apply String.eqb_eq.
  apply (for_all_byte_pairs
           (fun r o =>
              String.eqb
                (Sign.charAt Sign.s
                   (Z.lor (Z.shiftl (Z.land 15 r) 2) (Z.shiftr (Z.land 192 o) 6)))
                (char_of (r mod 16 * 4 + o / 64))));
    [vm_compute; reflexivity | exact Hr | exact Ho].
Qed.

Lemma fourth_char (o : Z) :
  is_byte o -> Sign.charAt Sign.s (Z.land 63 o) = char_of (o mod 64).
Proof.
  intros Ho. apply String.eqb_eq.
  apply (for_all_bytes
           (fun o => String.eqb (Sign.charAt Sign.s (Z.land 63 o)) (char_of (o mod 64))));
    [vm_compute; reflexivity | exact Ho].
Qed.

Lemma second_char_of_one (a : Z) :
  is_byte a ->
  Sign.charAt Sign.s (Z.shiftl (Z.land 3 (Z.land 255 a)) 4) = char_of (a mod 4 * 16).
Proof.
  intros Ha. apply String.eqb_eq.
  apply (for_all_bytes
           (fun a => String.eqb (Sign.charAt Sign.s (Z.shiftl (Z.land 3 (Z.land 255 a)) 4))
                       (char_of (a mod 4 * 16)))); [vm_compute; reflexivity | exact Ha].
Qed.

Lemma third_char_of_two (r : Z) :
  is_byte r ->
  Sign.charAt Sign.s (Z.shiftl (Z.land 15 r) 2) = char_of (r mod 16 * 4).
Proof.
  intros Hr. apply String.eqb_eq.
  apply (for_all_bytes
           (fun r => String.eqb (Sign.charAt Sign.s (Z.shiftl (Z.land 15 r) 2))
                       (char_of (r mod 16 * 4)))); [vm_compute; reflexivity | exact Hr].
Qed.

(** The 6-bit groups of RFC 4648, by division *)
Lemma encode_24_groups (a b c : Z) :
  is_byte a -> is_byte b -> is_byte c ->
  RFC4648.encode_24 a b c
  = char_of (a / 4) ++ char_of (a mod 4 * 16 + b / 16)
    ++ char_of (b mod 16 * 4 + c / 64) ++ char_of (c mod 64).
Proof.
  unfold is_byte, RFC4648.encode_24, RFC4648.sextets, char_of. intros Ha Hb Hc.
  cbn [map string_of_list_ascii append].
  replace ((a * 65536 + b * 256 + c) / 262144 mod 64) with (a / 4)
    by (Z.div_mod_to_equations; lia).
  replace ((a * 65536 + b * 256 + c) / 4096 mod 64) with (a mod 4 * 16 + b / 16)
    by (Z.div_mod_to_equations; lia).
  replace ((a * 65536 + b * 256 + c) / 64 mod 64) with (b mod 16 * 4 + c / 64)
    by (Z.div_mod_to_equations; lia).
  replace ((a * 65536 + b * 256 + c) mod 64) with (c mod 64)
    by (Z.div_mod_to_equations; lia).
  reflexivity.
Qed.

Lemma encode_16_groups (a b : Z) :
  is_byte a -> is_byte b ->
  RFC4648.encode_16 a b
  = char_of (a / 4) ++ char_of (a mod 4 * 16 + b / 16) ++ char_of (b mod 16 * 4) ++ "=".
Proof.
  unfold is_byte, RFC4648.encode_16, RFC4648.sextets, char_of. intros Ha Hb.
  cbn [map string_of_list_ascii append].
  replace ((a * 256 + b) * 4 / 4096 mod 64) with (a / 4)
    by (Z.div_mod_to_equations; lia).
  replace ((a * 256 + b) * 4 / 64 mod 64) with (a mod 4 * 16 + b / 16)
    by (Z.div_mod_to_equations; lia).
  replace ((a * 256 + b) * 4 mod 64) with (b mod 16 * 4)
    by (Z.div_mod_to_equations; lia).
  reflexivity.
Qed.

Lemma encode_8_groups (a : Z) :
  is_byte a ->
  RFC4648.encode_8 a = char_of (a / 4) ++ char_of (a mod 4 * 16) ++ "==".
Proof.
  unfold is_byte, RFC4648.encode_8, RFC4648.sextets, char_of. intros Ha.
  cbn [map string_of_list_ascii append].
  replace (a * 16 / 64 mod 64) with (a / 4) by (Z.div_mod_to_equations; lia).
  replace (a * 16 mod 64) with (a mod 4 * 16) by (Z.div_mod_to_equations; lia).
  reflexivity.
Qed.

(** *** The encoder is base64 *)

Lemma chunks_is_base64_bounded (k : nat) :
  forall e : list Z,
    (List.length e <= k)%nat -> Forall is_byte e -> chunks e = RFC4648.encode e.
Proof.
  induction k as [| k IH]; intros e Hlen Hall.
  - destruct e; [reflexivity | simpl in Hlen; lia].
  - destruct e as [| a [| r [| o rest]]]; [reflexivity | | |].
    + inversion Hall as [| ? ? Ha _]; subst. cbn [chunks RFC4648.encode].
      rewrite first_char, second_char_of_one, encode_8_groups by assumption.
      reflexivity.
    + inversion Hall as [| ? ? Ha Hall']; subst.
      inversion Hall' as [| ? ? Hr _]; subst. cbn [chunks RFC4648.encode].
      rewrite first_char, second_char, third_char_of_two, encode_16_groups by assumption.
      reflexivity.
    + inversion Hall as [| ? ? Ha Hall']; subst.
      inversion Hall' as [| ? ? Hr Hall'']; subst.
      inversion Hall'' as [| ? ? Ho Hrest]; subst. cbn [chunks RFC4648.encode].
      rewrite first_char, second_char, third_char, fourth_char, encode_24_groups
        by assumption.
      rewrite (IH rest) by (simpl in Hlen; lia || assumption).
      rewrite !append_assoc. reflexivity.
Qed.

Lemma sextet_char_in_alphabet (v : Z) :
  0 <= v < 64 -> RFC4648.in_alphabet (RFC4648.sextet_char v) = true.
Proof.
  intros Hv.
  assert (H : (64 <=? v) || RFC4648.in_alphabet (RFC4648.sextet_char v) = true).
  { apply (for_all_bytes
             (fun v => (64 <=? v) || RFC4648.in_alphabet (RFC4648.sextet_char v)));
      [vm_compute; reflexivity | unfold is_byte; lia]. }
  destruct (Z.leb_spec 64 v); [lia | exact H].
Qed.

Lemma sextets_in_alphabet (vs : list Z) :
  Forall (fun v => 0 <= v < 64) vs -> all_in_alphabet (RFC4648.sextets vs) = true.
Proof.
  intros H. unfold all_in_alphabet, RFC4648.sextets.
  rewrite list_ascii_of_string_of_list_ascii. apply forallb_forall.
  intros c Hc. apply in_map_iff in Hc. destruct Hc as [v [<- Hv]].
  rewrite Forall_forall in H. apply sextet_char_in_alphabet. now apply H.
Qed.

Lemma all_in_alphabet_append (s1 s2 : string) :
  all_in_alphabet s1 = true -> all_in_alphabet s2 = true ->
  all_in_alphabet (s1 ++ s2) = true.
Proof.
  unfold all_in_alphabet. intros H1 H2.
  rewrite list_ascii_of_string_append, forallb_app, H1, H2. reflexivity.
Qed.

Lemma length_sextets (vs : list Z) :
  String.length (RFC4648.sextets vs) = List.length vs.
Proof.
  unfold RFC4648.sextets. induction vs as [| v vs IH]; simpl; [reflexivity | now rewrite IH].
Qed.

Ltac mod_64_bounds :=
  repeat constructor; apply Z.mod_pos_bound; reflexivity.

Lemma base64_shape_bounded (k : nat) :
  forall e : list Z,
    (List.length e <= k)%nat ->
    exists body,
      RFC4648.encode e = body ++ RFC4648.padding (List.length e mod 3)
      /\ all_in_alphabet body = true
      /\ String.length body = body_length (List.length e).
Proof.
  induction k as [| k IH]; intros e Hlen.
  - destruct e; [| simpl in Hlen; lia]. exists "". repeat split.
  - destruct e as [| a [| b [| c rest]]].
    + exists "". repeat split.
    + eexists. cbn [RFC4648.encode]. unfold RFC4648.encode_8.
      split; [reflexivity |]. split; [apply sextets_in_alphabet; mod_64_bounds |].
      rewrite length_sextets. reflexivity.
    + eexists. cbn [RFC4648.encode]. unfold RFC4648.encode_16.
      split; [reflexivity |]. split; [apply sextets_in_alphabet; mod_64_bounds |].
      rewrite length_sextets. reflexivity.
    + destruct (IH rest ltac:(simpl in Hlen; lia)) as [body [Heq [Hin Hlen']]].
      exists (RFC4648.encode_24 a b c ++ body).
      assert (Hthree : List.length (a :: b :: c :: rest) = (List.length rest + 1 * 3)%nat)
        by (simpl; lia).
      rewrite Hthree. unfold body_length.
      rewrite Nat.Div0.mod_add, Nat.div_add by lia.
      cbn [RFC4648.encode]. rewrite Heq, append_assoc.
      split; [reflexivity |]. split.
      * apply all_in_alphabet_append; [| exact Hin].
        unfold RFC4648.encode_24. apply sextets_in_alphabet. mod_64_bounds.
      * rewrite length_append, Hlen'. unfold RFC4648.encode_24, body_length.
        rewrite length_sextets. simpl List.length. lia.
Qed.

(** C2: on a string of byte-valued characters the encoder inside [#sign]
    produces the base64 of RFC 4648: characters of the alphabet [A-Z],
    [a-z], [0-9], [+], [/], then no padding when the length is a multiple
    of three, ["=="] after one leftover byte and ["="] after two; and
    the bytes [102,111,111] give ["Zm9v"], the bytes [102,111] give
    ["Zm8="]. *)
Theorem sign_encoder_is_base64 (e : list Z) :
  Forall is_byte e ->
  Sign.encode e = RFC4648.encode e
  /\ (exists body,
        Sign.encode e = body ++ RFC4648.padding (List.length e mod 3)
        /\ all_in_alphabet body = true
        /\ String.length body = body_length (List.length e))
  /\ Sign.encode [102; 111; 111] = "Zm9v"
  /\ Sign.encode [102; 111] = "Zm8=".
Proof.
  intros Hall.
  assert (Heq : Sign.encode e = RFC4648.encode e).
  { rewrite encode_chunks.
    apply (chunks_is_base64_bounded (List.length e)); [lia | exact Hall]. }
  split; [exact Heq |]. split; [| split; reflexivity].
  rewrite Heq. apply (base64_shape_bounded (List.length e)). lia.
Qed.

Lemma sign_encoder_is_base64_witness :
  Sign.encode (charCodes "foob") = RFC4648.encode [102; 111; 111; 98]
  /\ Sign.encode (charCodes "foob") = "Zm9vYg==".
Proof.
  split.
  - apply (sign_encoder_is_base64 (charCodes "foob")).
    change (charCodes "foob") with [102; 111; 111; 98].
    repeat (apply Forall_cons; [unfold is_byte; lia |]). apply Forall_nil.
  - reflexivity.
Defined.

(** Every string of the model has byte-valued characters, so the
    signature [#sign] returns is the base64 of what the server-supplied
    function returned. *)
Lemma charCodes_are_bytes (str : string) : Forall is_byte (charCodes str).
Proof.
  unfold charCodes. apply Forall_forall. intros c Hc.
  apply in_map_iff in Hc. destruct Hc as [ch [<- _]].
  unfold is_byte, charCode. pose proof (nat_ascii_bounded ch). lia.
Qed.

Lemma encode_value_is_base64 (str : string) :
  Sign.encode_value (Str str) = Ok (RFC4648.encode (charCodes str)).
Proof.
  unfold Sign.encode_value. rewrite encode_chunks.
  rewrite (chunks_is_base64_bounded (List.length (charCodes str)));
    [reflexivity | lia | apply charCodes_are_bytes].
Qed.

(** ** Paths directly under the root *)

Lemma no_slash_at (name : string) :
  no_slash name = true -> forall i, Path.is_slash_at name i = false.
Proof.
  unfold no_slash, Path.is_slash_at.
  induction name as [| c name IH]; intros H i; [destruct i; reflexivity |].
  cbn in H. apply andb_prop in H. destruct H as [Hc Hname].
  destruct i as [| i]; cbn [String.get].
  - now apply negb_true_iff in Hc.
  - now apply IH.
Qed.

Lemma dirname_loop_no_slash (p : string) (i : nat) (matchedSlash : bool) :
  (forall j, (1 <= j <= i)%nat -> Path.is_slash_at p j = false) ->
  Path.dirname_loop p i matchedSlash = None.
Proof.
  revert matchedSlash. induction i as [| i IH]; intros matchedSlash H; [reflexivity |].
  cbn [Path.dirname_loop]. rewrite (H (S i)) by lia. apply IH. intros j Hj. apply H. lia.
Qed.

Lemma basename_loop_to_root (p : string) (k e : nat) :
  (1 <= k)%nat ->
  Path.is_slash_at p 0 = true ->
  (forall j, (1 <= j < k)%nat -> Path.is_slash_at p j = false) ->
  Path.basename_loop p k false (Some e) = (1%nat, Some e).
Proof.
  induction k as [| i IH]; intros Hk Hroot H; [lia |].
  cbn [Path.basename_loop]. destruct i as [| i].
  - rewrite Hroot. reflexivity.
  - rewrite (H (S i)) by lia. apply IH; [lia | exact Hroot |].
    intros j Hj. apply H. lia.
Qed.

Lemma substring_all (str : string) : String.substring 0 (String.length str) str = str.
Proof. induction str as [| c str IH]; simpl; [reflexivity | now rewrite IH]. Qed.

(** A destination ["/name"] has the root as its parent and [name] as its
    basename. *)
Lemma root_child (name : string) :
  no_slash name = true ->
  Path.dirname ("/" ++ name) = "/" /\ Path.basename ("/" ++ name) = name.
Proof.
  intros H. pose proof (no_slash_at name H) as Hat.
  change ("/" ++ name) with (String "/" name).
  assert (Hrest : forall j, (1 <= j)%nat -> Path.is_slash_at (String "/" name) j = false).
  { intros [| j] Hj; [lia |]. apply Hat. }
  split.
  - unfold Path.dirname. cbn [String.length Nat.eqb].
    rewrite dirname_loop_no_slash by (intros j Hj; apply Hrest; lia). reflexivity.
  - unfold Path.basename. cbn [String.length].
    destruct name as [| c name]; [reflexivity |].
    cbn [Path.basename_loop]. rewrite Hrest by (cbn; lia).
    rewrite basename_loop_to_root;
      [| cbn; lia | reflexivity | intros j Hj; apply Hrest; lia].
    unfold slice. cbn [String.length].
    replace (S (String.length name) + 1 - 1)%nat with (String.length (String c name))
      by (cbn; lia).
    change (String.substring 1 (String.length (String c name)) (String "/" (String c name)))
      with (String.substring 0 (String.length (String c name)) (String c name)).
    apply substring_all.
Qed.

Lemma move_entry_to_root (sourcePath name : string) :
  no_slash name = true ->
  move_entry (sourcePath, Str ("/" ++ name))
  = Ok {| MoveEntry.path := sourcePath; MoveEntry.dest := ""; MoveEntry.newname := name |}.
Proof.
  intros H. destruct (root_child name H) as [Hdir Hbase].
  unfold move_entry. cbn [path_dirname path_basename]. rewrite Hdir, Hbase. reflexivity.
Qed.

(** * Further properties *)

(** ** Stepping through a run *)

Lemma bind_Ok {A B} (m : M A) (k : A -> M B) (w : World) (tr tr' : Trace) (a : A) :
  m w tr = (Ok a, tr') -> bind m k w tr = k a w tr'.
Proof. intros H. unfold bind. rewrite H. reflexivity. Qed.

Lemma bind_Throw {A B} (m : M A) (k : A -> M B) (w : World) (tr tr' : Trace) (e : Error) :
  m w tr = (Throw e, tr') -> bind m k w tr = (Throw e, tr').
Proof. intros H. unfold bind. rewrite H. reflexivity. Qed.

Lemma fetch_json_answered (req : Request) (w : World) (tr : Trace)
    (body : string) (data : value) :
  respond w tr req = Some body ->
  JSON_parse w body = Some data ->
  fetch_json req w tr = (Ok data, (tr ++ [(req, Some body)])%list).
Proof. intros Hr Hp. rewrite fetch_json_eq, Hr, Hp. reflexivity. Qed.

Lemma if_errno_0_continues {A} (data : value) (ok : M A) (w : World) (tr : Trace) :
  is_strictly_0 (get data "errno") = true ->
  if_errno_0 data ok w tr = ok w tr.
Proof.
  intros H0. unfold if_errno_0, bind, prop.
  rewrite (is_strictly_0_not_nullish data H0). unfold ret. rewrite H0. reflexivity.
Qed.

Lemma mapM_all_Ok {A B} (f : A -> Result B) (l : list A) :
  forallb (fun a => is_Ok (f a)) l = true ->
  exists bs, mapM f l = Ok bs /\ Forall2 (fun a b => f a = Ok b) l bs.
Proof.
  induction l as [| a l IH]; simpl; intros H.
  - exists []. split; [reflexivity | constructor].
  - apply andb_prop in H. destruct H as [Ha Hl].
    destruct (f a) as [b |] eqn:Hfa; [| discriminate].
    destruct (IH Hl) as [bs [-> Hall]].
    exists (b :: bs). split; [reflexivity |]. constructor; assumption.
Qed.

Lemma mapM_one_Throw {A B} (f : A -> Result B) (l : list A) :
  existsb (fun a => negb (is_Ok (f a))) l = true ->
  is_Ok (mapM f l) = false.
Proof.
  induction l as [| a l IH]; simpl; intros H; [discriminate |].
  destruct (f a) as [b |]; [| reflexivity]. simpl in H.
  specialize (IH H). destruct (mapM f l); [discriminate | reflexivity].
Qed.

Lemma forallb_same {A} (f g : A -> bool) (l : list A) :
  (forall a, f a = g a) -> forallb f l = forallb g l.
Proof. intros H. induction l as [| a l IH]; simpl; [reflexivity | now rewrite H, IH]. Qed.

Lemma existsb_same {A} (f g : A -> bool) (l : list A) :
  (forall a, f a = g a) -> existsb f l = existsb g l.
Proof. intros H. induction l as [| a l IH]; simpl; [reflexivity | now rewrite H, IH]. Qed.

(** ** [list] *)

Lemma constructor_is_Ok_iff (data : value) (client : TeraBox) :
  is_Ok (TeraBoxDirent.constructor data client) = has_string_path data.
Proof.
  unfold TeraBoxDirent.constructor, has_string_path.
  destruct (is_nullish data) eqn:Hn.
  - rewrite (get_nullish data "path" Hn). reflexivity.
  - destruct (get data "path"); reflexivity.
Qed.

(** X1: a listing answered with [errno] zero and an array of records
    with string paths gives one entry per record, in the order of the
    array, each the entry its record constructs. *)
Theorem list_keeps_upstream_order
    (this : TeraBox) (directory : value) (w : World) (tr : Trace)
    (body : string) (data : value) (items : list value) :
  respond w tr (POST_list this (default directory (Str "/"))) = Some body ->
  JSON_parse w body = Some data ->
  is_strictly_0 (get data "errno") = true ->
  get data "list" = Arr items ->
  forallb has_string_path items = true ->
  exists entries,
    fst (TeraBox_list this directory w tr) = Ok entries
    /\ List.length entries = List.length items
    /\ Forall2 (fun i d => TeraBoxDirent.constructor i this = Ok d) items entries.
Proof.
  intros Hr Hp H0 Hlist Hpaths.
  destruct (mapM_all_Ok (fun i => TeraBoxDirent.constructor i this) items)
    as [entries [Hmap Hall]].
  { rewrite <- Hpaths. apply forallb_same. intros i. apply constructor_is_Ok_iff. }
  exists entries. split; [| split; [symmetry; exact (Forall2_length Hall) | exact Hall]].
  unfold TeraBox_list.
  rewrite (bind_Ok _ _ _ _ _ _ (fetch_json_answered _ w tr body data Hr Hp)).
  rewrite if_errno_0_continues by exact H0.
  rewrite Hlist. cbn [map_array]. unfold lift. rewrite Hmap. reflexivity.
Qed.

Lemma list_keeps_upstream_order_witness :
  exists first second,
    fst (run (TeraBox_list sample_client Undefined) (listing_World listing_envelope))
    = Ok [first; second]
    /\ TeraBoxDirent.path first = "/a/b.txt"
    /\ TeraBoxDirent.path second = "/a/c".
Proof.
  destruct (list_keeps_upstream_order sample_client Undefined
              (listing_World listing_envelope) [] (JSON_text listing_envelope)
              listing_envelope [sample_record; second_record]
              eq_refl eq_refl eq_refl eq_refl eq_refl)
    as [entries [Hrun [_ Hall]]].
  inversion Hall as [| i1 d1 l1 l1' H1 Hrest]; subst.
  inversion Hrest as [| i2 d2 l2 l2' H2 Hnil]; subst.
  inversion Hnil; subst.
  exists d1, d2. split; [exact Hrun |].
  cbv in H1. injection H1 as <-. cbv in H2. injection H2 as <-.
  split; reflexivity.
Defined.

(** X2: one record that the entry constructor rejects (it has no string
    [path], or is [null]) makes the whole listing fail, after the one
    request. *)
Theorem list_fails_on_a_record_without_path
    (this : TeraBox) (directory : value) (w : World) (tr : Trace)
    (body : string) (data : value) (items : list value) :
  respond w tr (POST_list this (default directory (Str "/"))) = Some body ->
  JSON_parse w body = Some data ->
  is_strictly_0 (get data "errno") = true ->
  get data "list" = Arr items ->
  existsb (fun i => negb (has_string_path i)) items = true ->
  is_Ok (fst (TeraBox_list this directory w tr)) = false
  /\ snd (TeraBox_list this directory w tr)
     = (tr ++ [(POST_list this (default directory (Str "/")), Some body)])%list.
Proof.
  intros Hr Hp H0 Hlist Hbad.
  unfold TeraBox_list.
  rewrite (bind_Ok _ _ _ _ _ _ (fetch_json_answered _ w tr body data Hr Hp)).
  rewrite if_errno_0_continues by exact H0.
  rewrite Hlist. cbn [map_array]. unfold lift. cbn [fst snd].
  split; [| reflexivity].
  apply mapM_one_Throw. rewrite <- Hbad. apply existsb_same.
  intros i. now rewrite constructor_is_Ok_iff.
Qed.

Lemma list_fails_on_a_record_without_path_witness :
  is_Ok (fst (run (TeraBox_list sample_client (Str "/a"))
                (listing_World broken_listing_envelope))) = false.
Proof.
  exact (proj1 (list_fails_on_a_record_without_path sample_client (Str "/a")
                  (listing_World broken_listing_envelope) []
                  (JSON_text broken_listing_envelope) broken_listing_envelope
                  [sample_record; Obj [("fs_id", Num (of_Z 43))]]
                  eq_refl eq_refl eq_refl eq_refl eq_refl)).
Defined.

(** ** Requests per call *)

Lemma silent_try_catch {A} (m : M A) (h : Error -> M A) :
  silent m -> (forall e, silent (h e)) -> silent (try_catch m h).
Proof.
  intros Hm Hh w tr. unfold try_catch. specialize (Hm w tr).
  destruct (m w tr) as [[a | e] tr']; simpl in Hm; subst tr'; [reflexivity | apply Hh].
Qed.

Lemma mapM_delete_strings (paths : list string) :
  mapM delete_filePath (map (fun p => Plain (Str p)) paths) = Ok paths.
Proof.
  induction paths as [| p ps IH]; simpl; [reflexivity |]. rewrite IH. reflexivity.
Qed.

(** X3: [quota], [list], [stream] and [delete], called with arguments
    they accept, make exactly one request each, whatever the answer is:
    nothing is retried and nothing else is fetched. *)
Theorem one_request_per_call (this : TeraBox) (w : World) (tr : Trace) :
  snd (TeraBox_quota this w tr)
  = (tr ++ [(POST_quota this, respond w tr (POST_quota this))])%list
  /\ (forall directory,
        snd (TeraBox_list this directory w tr)
        = (tr ++ [(POST_list this (default directory (Str "/")),
                   respond w tr (POST_list this (default directory (Str "/"))))])%list)
  /\ (forall filePath type,
        snd (TeraBox_stream this (Str filePath) type w tr)
        = (tr ++ [(POST_streaming this filePath (default type (Str "M3U8_FLV_264_480")),
                   respond w tr
                     (POST_streaming this filePath
                        (default type (Str "M3U8_FLV_264_480"))))])%list)
  /\ (forall paths,
        snd (TeraBox_delete this (Many (map (fun p => Plain (Str p)) paths)) w tr)
        = (tr ++ [(POST_filemanager_delete this paths,
                   respond w tr (POST_filemanager_delete this paths))])%list).
Proof.
  split; [| split; [| split]].
  - apply fetch_json_then_silent. intros data. auto with silent.
  - intros directory. apply fetch_json_then_silent. intros data. auto with silent.
  - intros filePath type. unfold TeraBox_stream, bind at 1, fetch.
    set (req := POST_streaming _ _ _).
    destruct (respond w tr req) as [body |]; [| reflexivity].
    match goal with
    | |- snd (?m w ?t) = _ => assert (Hs : silent m); [| apply Hs]
    end.
    apply silent_if; [| auto with silent].
    apply silent_try_catch; [| auto with silent].
    apply silent_bind; [auto with silent |]. intros json.
    apply silent_bind; auto with silent.
  - intros paths. unfold TeraBox_delete. cbn [as_array].
    unfold bind at 1, lift at 1. rewrite mapM_delete_strings.
    apply fetch_json_then_silent. intros data. auto with silent.
Qed.

(** ** Argument errors *)

Lemma mapM_delete_refused (l : list Item) :
  existsb no_path l = true ->
  exists received,
    mapM delete_filePath l
    = Throw (ERR_INVALID_ARG_TYPE "files"
               "an array of TeraBoxDirent instances or strings" received).
Proof.
  induction l as [| i l IH]; simpl; [discriminate |]. intros H.
  destruct i as [d | v]; simpl in *.
  - destruct (IH H) as [received ->]. eauto.
  - destruct v; simpl in *; eauto.
    destruct (IH H) as [received ->]. eauto.
Qed.

Lemma mapM_move_entry_refused (files : list (string * value)) :
  existsb (fun entry => negb (target_is_string entry)) files = true ->
  exists received,
    mapM move_entry files = Throw (ERR_INVALID_ARG_TYPE "path" "string" received).
Proof.
  induction files as [| [source target] files IH]; simpl; [discriminate |]. intros H.
  unfold target_is_string in H. simpl in H.
  destruct target; simpl in *; eauto.
  destruct (IH H) as [received ->]. eauto.
Qed.

(** X4: a call with an argument of the wrong type throws before any
    request is made: [stream] with a path that is not a string, [move]
    with something that is not an object, with [null], or with a
    destination that is not a string, [upload] with a path that is not
    a string, [delete] with an element that is neither an entry nor a
    string, and an entry's [move] with a target that is not a string. *)
Theorem argument_errors_make_no_request (this : TeraBox) (w : World) (tr : Trace) :
  (forall filePath type,
     typeof_is_not filePath "string" = true ->
     TeraBox_stream this filePath type w tr
     = (Throw (ERR_INVALID_ARG_TYPE "filePath" "string" (typeof filePath)), tr))
  /\ (forall files,
        typeof_is_not files "object" = true ->
        TeraBox_move this files w tr
        = (Throw (ERR_INVALID_ARG_TYPE "files" "object" (typeof files)), tr))
  /\ TeraBox_move this Null w tr
     = (Throw (TypeError "Cannot convert undefined or null to object"), tr)
  /\ (forall files,
        existsb (fun entry => negb (target_is_string entry)) files = true ->
        exists received,
          TeraBox_move this (Obj files) w tr
          = (Throw (ERR_INVALID_ARG_TYPE "path" "string" received), tr))
  /\ (forall filePath fileBody,
        typeof_is_not filePath "string" = true ->
        exists received,
          TeraBox_upload this filePath fileBody w tr
          = (Throw (ERR_INVALID_ARG_TYPE "path" "string" received), tr))
  /\ (forall files,
        existsb no_path (as_array files) = true ->
        exists received,
          TeraBox_delete this files w tr
          = (Throw (ERR_INVALID_ARG_TYPE "files"
                      "an array of TeraBoxDirent instances or strings" received), tr))
  /\ (forall entry targetPath,
        typeof_is_not targetPath "string" = true ->
        TeraBoxDirent_move entry targetPath w tr
        = (Throw (ERR_INVALID_ARG_TYPE "targetPath" "string" (typeof targetPath)), tr)).
Proof.
  repeat apply conj.
  - intros filePath type H. destruct filePath; try reflexivity; discriminate H.
  - intros files H. unfold TeraBox_move. rewrite H. reflexivity.
  - reflexivity.
  - intros files H. destruct (mapM_move_entry_refused files H) as [received Hthrow].
    exists received. unfold TeraBox_move. cbn [typeof_is_not typeof].
    change (negb (String.eqb "object" "object")) with false. cbn [Object_entries].
    unfold bind, lift. rewrite Hthrow. reflexivity.
  - intros filePath fileBody H. exists (typeof filePath).
    destruct filePath; try reflexivity; discriminate H.
  - intros files H. destruct (mapM_delete_refused _ H) as [received Hthrow].
    exists received. unfold TeraBox_delete, bind, lift. rewrite Hthrow. reflexivity.
  - intros entry targetPath H. unfold TeraBoxDirent_move. rewrite H. reflexivity.
Qed.

Lemma argument_errors_make_no_request_witness :
  run (TeraBox_stream sample_client (Num (of_Z 5)) Undefined) refusing_World
  = (Throw (ERR_INVALID_ARG_TYPE "filePath" "string" "number"), [])
  /\ run (TeraBox_move sample_client (Str "/a")) refusing_World
     = (Throw (ERR_INVALID_ARG_TYPE "files" "object" "string"), [])
  /\ exists received,
       run (TeraBox_delete sample_client (Many [Plain (Str "/a"); Plain (Num (of_Z 1))]))
         refusing_World
       = (Throw (ERR_INVALID_ARG_TYPE "files"
                   "an array of TeraBoxDirent instances or strings" received), []).
Proof.
  destruct (argument_errors_make_no_request sample_client refusing_World [])
    as [Hstream [Hmove [_ [_ [_ [Hdelete _]]]]]].
  split; [exact (Hstream (Num (of_Z 5)) Undefined eq_refl) |].
  split; [exact (Hmove (Str "/a") eq_refl) |].
  exact (Hdelete (Many [Plain (Str "/a"); Plain (Num (of_Z 1))]) eq_refl).
Defined.

(** ** Failure envelopes *)

(** X5: when the answer to its request is a JSON value whose [errno]
    is not the number zero, each of [quota], [list], [move], [delete],
    [upload] (at precreate) and [download] (at the home-info request)
    throws [ERR_API] with that [errno] and with [errmsg], or the empty
    string when [errmsg] is missing or falsy. *)
Theorem nonzero_envelope_is_thrown
    (this : TeraBox) (w : World) (tr : Trace) (body : string) (data : value) :
  JSON_parse w body = Some data ->
  is_nullish data = false ->
  is_strictly_0 (get data "errno") = false ->
  (respond w tr (POST_quota this) = Some body ->
   fst (TeraBox_quota this w tr) = Throw (envelope_error data))
  /\ (forall directory,
        respond w tr (POST_list this (default directory (Str "/"))) = Some body ->
        fst (TeraBox_list this directory w tr) = Throw (envelope_error data))
  /\ (forall files filelist,
        mapM move_entry files = Ok filelist ->
        respond w tr (POST_filemanager_move this filelist) = Some body ->
        fst (TeraBox_move this (Obj files) w tr) = Throw (envelope_error data))
  /\ (forall paths,
        respond w tr (POST_filemanager_delete this paths) = Some body ->
        fst (TeraBox_delete this (Many (map (fun p => Plain (Str p)) paths)) w tr)
        = Throw (envelope_error data))
  /\ (forall filePath fileBody,
        respond w tr
          (POST_precreate this filePath (upload_targetPath filePath)
             (Buffer_byteLength fileBody) (Date_now w tr / 1000)) = Some body ->
        fst (TeraBox_upload this (Str filePath) fileBody w tr)
        = Throw (envelope_error data))
  /\ (forall fileIds ids,
        mapM download_fileId (as_array fileIds) = Ok ids ->
        respond w tr (POST_home_info this) = Some body ->
        fst (TeraBox_download this fileIds w tr) = Throw (envelope_error data)).
Proof.
  intros Hp Hn H0. repeat apply conj.
  - now apply (quota_throws_ERR_API this w tr body data).
  - intros directory. now apply (list_throws_ERR_API this w tr body data).
  - intros files filelist. now apply (move_throws_ERR_API this w tr body data).
  - intros paths. now apply (delete_throws_ERR_API this w tr body data).
  - intros filePath fileBody Hr. unfold TeraBox_upload.
    cbn [path_dirname]. unfold bind at 1, lift at 1.
    unfold bind at 1, now_seconds at 1.
    fold (upload_targetPath filePath).
    rewrite (bind_Ok _ _ _ _ _ _ (fetch_json_answered _ w tr body data Hr Hp)).
    unfold bind at 1, prop at 1. rewrite Hn. unfold ret at 1. rewrite H0. reflexivity.
  - intros fileIds ids Hids Hr. unfold TeraBox_download.
    unfold bind at 1, lift at 1. rewrite Hids.
    pose proof (fetchHome_throws_ERR_API this w tr body data Hp Hn H0 Hr) as Hhome.
    unfold bind at 1, TeraBox_sign, bind at 1.
    destruct (TeraBox_fetchHome this w tr) as [[home | e] tr'];
      simpl in Hhome; [discriminate |]. injection Hhome as ->. reflexivity.
Qed.

Lemma nonzero_envelope_is_thrown_witness :
  fst (run (TeraBox_list sample_client Undefined) refusing_World)
  = Throw (ERR_API (Num (of_Z 2)) (Str "denied"))
  /\ fst (run (TeraBox_download sample_client (One (Plain (Num (of_Z 42)))))
            refusing_World)
     = Throw (ERR_API (Num (of_Z 2)) (Str "denied")).
Proof.
  destruct (nonzero_envelope_is_thrown sample_client refusing_World []
              (JSON_text refused_envelope) refused_envelope eq_refl eq_refl eq_refl)
    as [_ [Hlist [_ [_ [_ Hdownload]]]]].
  split; [exact (Hlist Undefined eq_refl) |].
  exact (Hdownload (One (Plain (Num (of_Z 42)))) [Num (of_Z 42)] eq_refl eq_refl).
Defined.

(** ** [delete] *)

Lemma mapM_delete_paths (l : list Item) :
  forall paths, map item_path l = map Some paths -> mapM delete_filePath l = Ok paths.
Proof.
  induction l as [| i l IH]; intros [| p paths] H; try discriminate H; [reflexivity |].
  cbn [map] in H. injection H as Hi Hl. cbn [mapM]. rewrite (IH paths Hl).
  destruct i as [d | v]; simpl in *.
  - injection Hi as <-. reflexivity.
  - destruct v; try discriminate Hi. injection Hi as <-. reflexivity.
Qed.

(** X6: [delete] takes the path of every entry and every string as it
    is, sends them in one request in the order given, a single element
    counting as an array of one, and returns [true] when the answer has
    [errno] zero. *)
Theorem delete_sends_the_paths_in_order
    (this : TeraBox) (files : Items) (paths : list string) (w : World) (tr : Trace) :
  map item_path (as_array files) = map Some paths ->
  snd (TeraBox_delete this files w tr)
  = (tr ++ [(POST_filemanager_delete this paths,
             respond w tr (POST_filemanager_delete this paths))])%list
  /\ (forall body data,
        respond w tr (POST_filemanager_delete this paths) = Some body ->
        JSON_parse w body = Some data ->
        is_strictly_0 (get data "errno") = true ->
        fst (TeraBox_delete this files w tr) = Ok true).
Proof.
  intros H. pose proof (mapM_delete_paths _ paths H) as Hmap. split.
  - unfold TeraBox_delete, bind at 1, lift at 1. rewrite Hmap.
    apply fetch_json_then_silent. intros data. auto with silent.
  - intros body data Hr Hp H0.
    unfold TeraBox_delete, bind at 1, lift at 1. rewrite Hmap.
    rewrite (bind_Ok _ _ _ _ _ _ (fetch_json_answered _ w tr body data Hr Hp)).
    rewrite if_errno_0_continues by exact H0. reflexivity.
Qed.

Lemma delete_sends_the_paths_in_order_witness :
  run (TeraBox_delete sample_client (Many [Dirent sample_dirent; Plain (Str "/x")]))
    move_World
  = (Ok true,
     [(POST_filemanager_delete sample_client ["/a/b.txt"; "/x"],
       Some (JSON_text ok_envelope))])
  /\ snd (run (TeraBox_delete sample_client (One (Dirent sample_dirent))) move_World)
     = [(POST_filemanager_delete sample_client ["/a/b.txt"], Some (JSON_text ok_envelope))].
Proof.
  destruct (delete_sends_the_paths_in_order sample_client
              (Many [Dirent sample_dirent; Plain (Str "/x")]) ["/a/b.txt"; "/x"]
              move_World [] eq_refl) as [Htrace Hresult].
  split.
  - apply injective_projections; [| exact Htrace].
    exact (Hresult (JSON_text ok_envelope) ok_envelope eq_refl eq_refl eq_refl).
  - exact (proj1 (delete_sends_the_paths_in_order sample_client
                    (One (Dirent sample_dirent)) ["/a/b.txt"] move_World [] eq_refl)).
Defined.

(** ** [#fetchHome] and [#sign] *)

Lemma home_check (home : value) :
  JS.not home || JS.not (get home "sign1") || JS.not (get home "sign2")
  || JS.not (get home "sign3") || JS.not (get home "timestamp")
  = negb (home_is_complete home).
Proof.
  unfold JS.not, home_is_complete.
  destruct (ToBoolean home), (ToBoolean (get home "sign1")),
    (ToBoolean (get home "sign2")), (ToBoolean (get home "sign3")),
    (ToBoolean (get home "timestamp")); reflexivity.
Qed.

Lemma fetchHome_answered (this : TeraBox) (w : World) (tr : Trace)
    (body : string) (data : value) :
  respond w tr (POST_home_info this) = Some body ->
  JSON_parse w body = Some data ->
  is_strictly_0 (get data "errno") = true ->
  TeraBox_fetchHome this w tr
  = (if home_is_complete (get data "data") then Ok (get data "data")
     else Throw (ERR_API_Unable "fetch home information"),
     (tr ++ [(POST_home_info this, Some body)])%list).
Proof.
  intros Hr Hp H0. unfold TeraBox_fetchHome.
  rewrite (bind_Ok _ _ _ _ _ _ (fetch_json_answered _ w tr body data Hr Hp)).
  rewrite if_errno_0_continues by exact H0.
  rewrite home_check. destruct (home_is_complete (get data "data")); reflexivity.
Qed.

Lemma fetchHome_Ok_inv (this : TeraBox) (w : World) (tr tr' : Trace) (home : value) :
  TeraBox_fetchHome this w tr = (Ok home, tr') ->
  exists ev,
    tr' = (tr ++ [ev])%list /\ home_info_returned_data w ev = true.
Proof.
  unfold TeraBox_fetchHome, bind at 1. rewrite fetch_json_eq.
  set (req := POST_home_info this).
  destruct (respond w tr req) as [body |] eqn:Hr; [| discriminate].
  destruct (JSON_parse w body) as [data |] eqn:Hp; [| discriminate].
  unfold if_errno_0, bind, prop.
  destruct (is_nullish data); [discriminate |]. unfold ret at 1.
  destruct (is_strictly_0 (get data "errno")) eqn:H0; [| discriminate].
  rewrite home_check.
  destruct (home_is_complete (get data "data")) eqn:Hc; [| discriminate].
  intros H. injection H as _ <-.
  exists (req, Some body). split; [reflexivity |].
  unfold home_info_returned_data, returned. cbn [fst snd is_home_info req].
  rewrite Hp, H0, Hc. reflexivity.
Qed.

Lemma sign_Ok_inv (this : TeraBox) (w : World) (tr tr' : Trace) (sg : Signature.t) :
  TeraBox_sign this w tr = (Ok sg, tr') ->
  exists ev,
    tr' = (tr ++ [ev])%list /\ home_info_returned_data w ev = true.
Proof.
  unfold TeraBox_sign, bind at 1.
  destruct (TeraBox_fetchHome this w tr) as [[home | e] tr1] eqn:Hhome; [| discriminate].
  destruct (fetchHome_Ok_inv this w tr tr1 home Hhome) as [ev [-> Hev]].
  intros H. exists ev. split; [| exact Hev].
  match type of H with
  | ?m w ?t = _ => assert (Hs : silent m)
  end.
  { apply silent_bind; [auto with silent |]. intros e.
    apply silent_bind; auto with silent. }
  specialize (Hs w (tr ++ [ev])%list). rewrite H in Hs. exact Hs.
Qed.

(** ** [download] after its argument check *)

(** X7: [download] asks for links only with a signature: a download
    request is always the second request of the call, after a home-info
    request answered with [errno] zero and all of [sign1], [sign2],
    [sign3] and [timestamp]; a call makes two requests at most. *)
Theorem download_needs_home_info (this : TeraBox) (fileIds : Items)
    (w : World) (tr : Trace) :
  exists new,
    snd (TeraBox_download this fileIds w tr) = (tr ++ new)%list
    /\ (List.length new <= 2)%nat
    /\ forall before ev after,
         new = (before ++ ev :: after)%list ->
         is_download ev = true ->
         exists home_ev, before = [home_ev] /\ home_info_returned_data w home_ev = true.
Proof.
  unfold TeraBox_download, bind at 1, lift at 1.
  destruct (mapM download_fileId (as_array fileIds)) as [ids | e].
  - unfold bind at 1.
    destruct (TeraBox_sign this w tr) as [[sg | e] tr'] eqn:Hsign.
    + destruct (sign_Ok_inv this w tr tr' sg Hsign) as [home_ev [-> Hhome]].
      rewrite fetch_json_then_silent by (intros data; auto with silent).
      rewrite <- app_assoc. eexists. split; [reflexivity |]. split; [simpl; lia |].
      intros before ev after H Hev.
      destruct before as [| b0 [| b1 [| b2 before]]]; cbn in H.
      * injection H as Hb _. subst ev. unfold home_info_returned_data in Hhome.
        apply andb_prop in Hhome. destruct Hhome as [Hkind _].
        unfold is_download in Hev. unfold is_home_info in Hkind.
        destruct (fst home_ev); discriminate.
      * injection H as Hb _ _. exists b0. split; [reflexivity |].
        congruence.
      * discriminate H.
      * discriminate H.
    + pose proof (sign_trace this w tr) as Ht. rewrite Hsign in Ht. simpl in Ht.
      subst tr'. eexists. split; [reflexivity |]. split; [simpl; lia |].
      intros before ev after H Hev.
      destruct before as [| b0 [| b1 before]]; cbn in H; try discriminate H.
      injection H as <- _. discriminate Hev.
  - exists []. rewrite app_nil_r. split; [reflexivity |]. split; [simpl; lia |].
    intros before ev after H. destruct before; discriminate H.
Qed.

Lemma length_not_below_1 (n : nat) :
  JS.lt (Num (of_Z (Z.of_nat (S n)))) (Num (of_Z 1)) = false.
Proof.
  unfold JS.lt, ToNumber, number_ltb, of_Z. apply negb_false_iff.
  apply Qle_bool_iff. unfold Qle, inject_Z. cbn [Qnum Qden]. lia.
Qed.

Section SignedDownload.

Variables (this : TeraBox) (w : World) (tr : Trace).
Variables (fileIds : Items) (ids : list value).
Variables (home_body : string) (home_data : value) (transformed : string).

Hypothesis accepted : mapM download_fileId (as_array fileIds) = Ok ids.
Hypothesis home_answered : respond w tr (POST_home_info this) = Some home_body.
Hypothesis home_parsed : JSON_parse w home_body = Some home_data.
Hypothesis home_errno_0 : is_strictly_0 (get home_data "errno") = true.
Hypothesis home_complete : home_is_complete (get home_data "data") = true.
Hypothesis sign2_returns :
  call_sign2 w (get (get home_data "data") "sign2") (get (get home_data "data") "sign3")
    (get (get home_data "data") "sign1")
  = Ok (Str transformed).

Lemma sign_answered :
  TeraBox_sign this w tr
  = (Ok {| Signature.sign := RFC4648.encode (charCodes transformed);
           Signature.timestamp := get (get home_data "data") "timestamp" |},
     (tr ++ [(POST_home_info this, Some home_body)])%list).
Proof.
  unfold TeraBox_sign.
  pose proof (fetchHome_answered this w tr home_body home_data
                home_answered home_parsed home_errno_0) as Hhome.
  rewrite home_complete in Hhome. rewrite (bind_Ok _ _ _ _ _ _ Hhome).
  unfold bind at 1, eval_sign2 at 1. rewrite sign2_returns.
  unfold bind, lift. rewrite encode_value_is_base64. reflexivity.
Qed.

Lemma download_signed :
  TeraBox_download this fileIds w tr
  = (let* data :=
       fetch_json (signed_download_request this ids (get home_data "data") transformed) in
     if_errno_0 data
       (let dlink := get data "dlink" in
        if JS.not dlink || JS.lt (get dlink "length") (Num (of_Z 1))
        then throw (ERR_API_Unable "fetch download link")
        else map_array "data.dlink" dlink download_link))
      w (tr ++ [(POST_home_info this, Some home_body)])%list.
Proof.
  unfold TeraBox_download, bind at 1, lift at 1. rewrite accepted.
  rewrite (bind_Ok _ _ _ _ _ _ sign_answered). reflexivity.
Qed.

(** X8: the download request carries the normalized ids, as its
    signature the base64 of the string the server-supplied function
    returned on [(sign3, sign1)], and the home data's [timestamp]. *)
Theorem download_request_is_signed :
  snd (TeraBox_download this fileIds w tr)
  = (tr ++ [(POST_home_info this, Some home_body);
            (signed_download_request this ids (get home_data "data") transformed,
             respond w (tr ++ [(POST_home_info this, Some home_body)])%list
               (signed_download_request this ids (get home_data "data") transformed))])%list.
Proof.
  rewrite download_signed.
  rewrite fetch_json_then_silent by (intros data; auto with silent).
  rewrite <- app_assoc. reflexivity.
Qed.

Variables (body : string) (data : value).

Hypothesis answered :
  respond w (tr ++ [(POST_home_info this, Some home_body)])%list
    (signed_download_request this ids (get home_data "data") transformed)
  = Some body.
Hypothesis parsed : JSON_parse w body = Some data.
Hypothesis errno_0 : is_strictly_0 (get data "errno") = true.

Lemma download_answered :
  fst (TeraBox_download this fileIds w tr)
  = fst ((let dlink := get data "dlink" in
          if JS.not dlink || JS.lt (get dlink "length") (Num (of_Z 1))
          then throw (ERR_API_Unable "fetch download link")
          else map_array "data.dlink" dlink download_link)
           w (tr ++ [(POST_home_info this, Some home_body)]
                 ++ [(signed_download_request this ids (get home_data "data") transformed,
                      Some body)])%list).
Proof.
  rewrite download_signed.
  rewrite (bind_Ok _ _ _ _ _ _ (fetch_json_answered _ w _ body data answered parsed)).
  rewrite if_errno_0_continues by exact errno_0.
  rewrite <- app_assoc. reflexivity.
Qed.

(** X9: on an answer with [errno] zero whose [dlink] is a non-empty
    array of objects, [download] returns one [{id, link}] pair per
    element, in the order of the answer, with the element's [fs_id] and
    [dlink]; the ids asked for play no part. *)
Theorem download_links_follow_the_answer (items : list value) :
  get data "dlink" = Arr items ->
  items <> [] ->
  forallb not_nullish items = true ->
  fst (TeraBox_download this fileIds w tr) = Ok (map link_of items).
Proof.
  intros Hdlink Hne Hobjects. rewrite download_answered. cbv zeta. rewrite Hdlink.
  assert (Hlen : JS.lt (get (Arr items) "length") (Num (of_Z 1)) = false).
  { destruct items as [| i items]; [contradiction |].
    change (get (Arr (i :: items)) "length")
      with (Num (of_Z (Z.of_nat (S (List.length items))))).
    apply length_not_below_1. }
  rewrite Hlen. cbn [JS.not ToBoolean negb orb map_array]. unfold lift. cbn [fst].
  clear Hdlink Hne Hlen. induction items as [| i items IH]; [reflexivity |].
  cbn [forallb] in Hobjects. apply andb_prop in Hobjects. destruct Hobjects as [Hi Hrest].
  cbn [mapM map]. unfold download_link at 1.
  unfold not_nullish in Hi. apply negb_true_iff in Hi. rewrite Hi.
  rewrite (IH Hrest). reflexivity.
Qed.

(** X10: an answer with [errno] zero but without links ([dlink] missing,
    falsy or an empty array) is a failure of its own:
    [[ERR_API] Unable to fetch download link]. *)
Theorem download_without_links_fails :
  ToBoolean (get data "dlink") = false \/ get data "dlink" = Arr [] ->
  fst (TeraBox_download this fileIds w tr)
  = Throw (ERR_API_Unable "fetch download link").
Proof.
  intros H. rewrite download_answered. cbv zeta. unfold JS.not.
  destruct H as [H | H]; rewrite H; reflexivity.
Qed.

End SignedDownload.

Lemma download_request_is_signed_witness :
  snd (run (TeraBox_download sample_client (Many [Dirent sample_dirent; Plain (Str "42")]))
         download_World)
  = [(POST_home_info sample_client, Some (JSON_text home_envelope));
     (POST_download sample_client [Num (of_Z 42); Num (of_Z 42)] (Str "Zm8=")
        (Num (of_Z 1700000000)),
      Some (JSON_text dlink_envelope))].
Proof.
  exact (download_request_is_signed sample_client download_World []
           (Many [Dirent sample_dirent; Plain (Str "42")]) [Num (of_Z 42); Num (of_Z 42)]
           (JSON_text home_envelope) home_envelope "fo"
           eq_refl eq_refl eq_refl eq_refl eq_refl eq_refl).
Defined.

Lemma download_links_follow_the_answer_witness :
  fst (run (TeraBox_download sample_client (One (Plain (Num (of_Z 7))))) download_World)
  = Ok [{| Link.id := Num (of_Z 42); Link.link := Str "https://d/42" |}].
Proof.
  exact (download_links_follow_the_answer sample_client download_World []
           (One (Plain (Num (of_Z 7)))) [Num (of_Z 7)]
           (JSON_text home_envelope) home_envelope "fo"
           eq_refl eq_refl eq_refl eq_refl eq_refl eq_refl
           (JSON_text dlink_envelope) dlink_envelope eq_refl eq_refl eq_refl
           [Obj [("fs_id", Num (of_Z 42)); ("dlink", Str "https://d/42")]]
           eq_refl ltac:(discriminate) eq_refl).
Defined.

Lemma download_without_links_fails_witness :
  fst (run (TeraBox_download sample_client (One (Dirent sample_dirent))) no_links_World)
  = Throw (ERR_API_Unable "fetch download link").
Proof.
  exact (download_without_links_fails sample_client no_links_World []
           (One (Dirent sample_dirent)) [Num (of_Z 42)]
           (JSON_text home_envelope) home_envelope "fo"
           eq_refl eq_refl eq_refl eq_refl eq_refl eq_refl
           (JSON_text no_dlink_envelope) no_dlink_envelope eq_refl eq_refl eq_refl
           (or_intror eq_refl)).
Defined.

(** X11: home data with [errno] zero but without one of [sign1],
    [sign2], [sign3] and [timestamp] (or without [data] at all) makes
    [download] throw [[ERR_API] Unable to fetch home information] after
    that one request: no links are asked for. *)
Theorem download_needs_complete_home_info
    (this : TeraBox) (fileIds : Items) (ids : list value) (w : World) (tr : Trace)
    (body : string) (data : value) :
  mapM download_fileId (as_array fileIds) = Ok ids ->
  respond w tr (POST_home_info this) = Some body ->
  JSON_parse w body = Some data ->
  is_strictly_0 (get data "errno") = true ->
  home_is_complete (get data "data") = false ->
  TeraBox_download this fileIds w tr
  = (Throw (ERR_API_Unable "fetch home information"),
     (tr ++ [(POST_home_info this, Some body)])%list).
Proof.
  intros Hids Hr Hp H0 Hc.
  unfold TeraBox_download, bind at 1, lift at 1. rewrite Hids.
  pose proof (fetchHome_answered this w tr body data Hr Hp H0) as Hhome.
  rewrite Hc in Hhome.
  apply bind_Throw. unfold TeraBox_sign. apply bind_Throw. exact Hhome.
Qed.

Lemma download_needs_complete_home_info_witness :
  run (TeraBox_download sample_client (One (Plain (Num (of_Z 42))))) incomplete_home_World
  = (Throw (ERR_API_Unable "fetch home information"),
     [(POST_home_info sample_client, Some (JSON_text incomplete_home_envelope))]).
Proof.
  exact (download_needs_complete_home_info sample_client (One (Plain (Num (of_Z 42))))
           [Num (of_Z 42)] incomplete_home_World []
           (JSON_text incomplete_home_envelope) incomplete_home_envelope
           eq_refl eq_refl eq_refl eq_refl eq_refl).
Defined.

(** ** [download]: the ids it asks for *)





Example download_run :
  run (TeraBox_download sample_client
         (Many [Dirent sample_dirent; Plain (Num (of_Z 42)); Plain (Str "42")]))
    download_World
  = (Ok [{| Link.id := Num (of_Z 42); Link.link := Str "https://d/42" |}],
     [(POST_home_info sample_client, Some (JSON_text home_envelope));
      (POST_download sample_client [Num (of_Z 42); Num (of_Z 42); Num (of_Z 42)]
         (Str "Zm8=") (Num (of_Z 1700000000)),
       Some (JSON_text dlink_envelope))]).
Proof. reflexivity. Qed.

(** ** [upload], step by step *)

Lemma substring_at_end (str : string) :
  String.substring (String.length str) 1 (str ++ "/") = "/".
Proof. induction str as [| c str IH]; [reflexivity | exact IH]. Qed.

Lemma endsWith_appended_slash (str : string) : endsWith (str ++ "/") "/" = true.
Proof.
  unfold endsWith. rewrite length_append. cbn [String.length].
  replace (String.length str + 1 - 1)%nat with (String.length str) by lia.
  rewrite substring_at_end.
  destruct (Nat.leb_spec 1 (String.length str + 1)); [reflexivity | lia].
Qed.

Lemma upload_targetPath_ends_with_slash (filePath : string) :
  endsWith (upload_targetPath filePath) "/" = true.
Proof.
  unfold upload_targetPath.
  destruct (endsWith (Path.dirname filePath) "/") eqn:H; cbn [negb];
    [exact H | apply endsWith_appended_slash].
Qed.

Section UploadRun.

Variables (this : TeraBox) (filePath : string) (fileBody : Buffer).
Variables (w : World) (tr : Trace).
Variables (precreate_body : string) (precreated : value).

Hypothesis precreate_answered :
  respond w tr (precreate_request this filePath fileBody (Date_now w tr))
  = Some precreate_body.
Hypothesis precreate_parsed : JSON_parse w precreate_body = Some precreated.
Hypothesis precreate_errno_0 : is_strictly_0 (get precreated "errno") = true.

Lemma upload_after_precreate :
  TeraBox_upload this (Str filePath) fileBody w tr
  = (let* data_superfile :=
       fetch_json (transfer_request this filePath fileBody precreated) in
     let* md5 := prop data_superfile "md5" in
     if JS.not md5 then throw (ERR_API_Unable "upload file")
     else
       let* local_mtime := now_seconds in
       let* data_create :=
         fetch_json (POST_create this filePath (Buffer_byteLength fileBody)
                       (get precreated "uploadid") (upload_targetPath filePath)
                       md5 local_mtime) in
       let* errno := prop data_create "errno" in
       if is_strictly_0 errno then lift (TeraBoxDirent.constructor data_create this)
       else throw_ERR_API data_create)
      w (tr ++ [(precreate_request this filePath fileBody (Date_now w tr),
                 Some precreate_body)])%list.
Proof.
  unfold TeraBox_upload. cbn [path_dirname]. unfold bind at 1, lift at 1.
  unfold bind at 1, now_seconds at 1. fold (upload_targetPath filePath).
  fold (precreate_request this filePath fileBody (Date_now w tr)).
  rewrite (bind_Ok _ _ _ _ _ _
             (fetch_json_answered _ w tr precreate_body precreated
                precreate_answered precreate_parsed)).
  unfold bind at 1, prop at 1.
  rewrite (is_strictly_0_not_nullish precreated precreate_errno_0).
  unfold ret at 1. rewrite precreate_errno_0. reflexivity.
Qed.

Variables (transfer_body : string) (transferred : value).

Hypothesis transfer_answered :
  respond w
    (tr ++ [(precreate_request this filePath fileBody (Date_now w tr),
             Some precreate_body)])%list
    (transfer_request this filePath fileBody precreated)
  = Some transfer_body.
Hypothesis transfer_parsed : JSON_parse w transfer_body = Some transferred.
Hypothesis transfer_is_an_object : is_nullish transferred = false.

(** X12: a transfer answer without a truthy [md5] ends the upload with
    [[ERR_API] Unable to upload file] after the two requests, whatever
    else that answer says. *)
Theorem upload_without_checksum_fails :
  ToBoolean (get transferred "md5") = false ->
  TeraBox_upload this (Str filePath) fileBody w tr
  = (Throw (ERR_API_Unable "upload file"),
     (tr ++ [(precreate_request this filePath fileBody (Date_now w tr),
              Some precreate_body);
             (transfer_request this filePath fileBody precreated,
              Some transfer_body)])%list).
Proof.
  intros Hmd5. rewrite upload_after_precreate.
  rewrite (bind_Ok _ _ _ _ _ _
             (fetch_json_answered _ w _ transfer_body transferred
                transfer_answered transfer_parsed)).
  unfold bind at 1, prop at 1. rewrite transfer_is_an_object. unfold ret at 1.
  unfold JS.not. rewrite Hmd5. cbn [negb]. unfold throw.
  rewrite <- app_assoc. reflexivity.
Qed.

Variables (finalize_body : string) (finalized : value).

Hypothesis transfer_has_checksum : ToBoolean (get transferred "md5") = true.
Hypothesis finalize_answered :
  respond w
    (tr ++ [(precreate_request this filePath fileBody (Date_now w tr),
             Some precreate_body);
            (transfer_request this filePath fileBody precreated,
             Some transfer_body)])%list
    (finalize_request this filePath fileBody precreated transferred
       (Date_now w
          (tr ++ [(precreate_request this filePath fileBody (Date_now w tr),
                   Some precreate_body);
                  (transfer_request this filePath fileBody precreated,
                   Some transfer_body)])%list))
  = Some finalize_body.
Hypothesis finalize_parsed : JSON_parse w finalize_body = Some finalized.
Hypothesis finalize_errno_0 : is_strictly_0 (get finalized "errno") = true.

(** X13: when the three steps are answered with success, [upload]
    makes exactly the three requests, the second with the [uploadid] of
    the first answer, the third with that [uploadid], the [md5] of the
    second answer as its block list and the path, size and target
    directory of the first request, a target directory that ends in a
    slash; the result is the entry the constructor makes of the third
    answer, so an answer without a string [path] fails the upload after
    the file is stored. *)
Theorem upload_success_path :
  TeraBox_upload this (Str filePath) fileBody w tr
  = (TeraBoxDirent.constructor finalized this,
     (tr ++ [(precreate_request this filePath fileBody (Date_now w tr),
              Some precreate_body);
             (transfer_request this filePath fileBody precreated,
              Some transfer_body);
             (finalize_request this filePath fileBody precreated transferred
                (Date_now w
                   (tr ++ [(precreate_request this filePath fileBody (Date_now w tr),
                            Some precreate_body);
                           (transfer_request this filePath fileBody precreated,
                            Some transfer_body)])%list),
              Some finalize_body)])%list)
  /\ endsWith (upload_targetPath filePath) "/" = true
  /\ is_Ok (fst (TeraBox_upload this (Str filePath) fileBody w tr))
     = has_string_path finalized.
Proof.
  assert (Hrun : TeraBox_upload this (Str filePath) fileBody w tr
                 = (TeraBoxDirent.constructor finalized this,
                    (tr ++ [(precreate_request this filePath fileBody (Date_now w tr),
                             Some precreate_body);
                            (transfer_request this filePath fileBody precreated,
                             Some transfer_body);
                            (finalize_request this filePath fileBody precreated transferred
                               (Date_now w
                                  (tr ++ [(precreate_request this filePath fileBody
                                             (Date_now w tr),
                                           Some precreate_body);
                                          (transfer_request this filePath fileBody precreated,
                                           Some transfer_body)])%list),
                             Some finalize_body)])%list)).
  { rewrite upload_after_precreate.
    rewrite (bind_Ok _ _ _ _ _ _
               (fetch_json_answered _ w _ transfer_body transferred
                  transfer_answered transfer_parsed)).
    unfold bind at 1, prop at 1. rewrite transfer_is_an_object. unfold ret at 1.
    unfold JS.not. rewrite transfer_has_checksum. cbn [negb].
    unfold bind at 1, now_seconds at 1.
    rewrite <- app_assoc. cbn [app].
    fold (finalize_request this filePath fileBody precreated transferred
            (Date_now w
               (tr ++ [(precreate_request this filePath fileBody (Date_now w tr),
                        Some precreate_body);
                       (transfer_request this filePath fileBody precreated,
                        Some transfer_body)])%list)).
    rewrite (bind_Ok _ _ _ _ _ _
               (fetch_json_answered _ w _ finalize_body finalized
                  finalize_answered finalize_parsed)).
    unfold bind at 1, prop at 1.
    rewrite (is_strictly_0_not_nullish finalized finalize_errno_0).
    unfold ret at 1. rewrite finalize_errno_0. unfold lift.
    rewrite <- app_assoc. reflexivity. }
  split; [exact Hrun |]. split; [apply upload_targetPath_ends_with_slash |].
  rewrite Hrun. apply constructor_is_Ok_iff.
Qed.

End UploadRun.

Lemma upload_without_checksum_fails_witness :
  run (TeraBox_upload sample_client (Str "/a/f.mp4") three_bytes) no_checksum_World
  = (Throw (ERR_API_Unable "upload file"),
     [(POST_precreate sample_client "/a/f.mp4" "/a/" 3 1700000000,
       Some (JSON_text precreate_envelope));
      (POST_superfile2 sample_client "/a/f.mp4" (Str "N1") three_bytes "f.mp4",
       Some (JSON_text no_checksum_response))]).
Proof.
  exact (upload_without_checksum_fails sample_client "/a/f.mp4" three_bytes
           no_checksum_World []
           (JSON_text precreate_envelope) precreate_envelope eq_refl eq_refl eq_refl
           (JSON_text no_checksum_response) no_checksum_response eq_refl eq_refl eq_refl
           eq_refl).
Defined.

Lemma upload_success_path_witness :
  exists entry,
    fst (run (TeraBox_upload sample_client (Str "/a/f.mp4") three_bytes)
           (upload_World precreate_envelope))
    = Ok entry
    /\ TeraBoxDirent.path entry = "/a/f.mp4"
    /\ TeraBoxDirent.size entry = Num (of_Z 3).
Proof.
  destruct (upload_success_path sample_client "/a/f.mp4" three_bytes
              (upload_World precreate_envelope) []
              (JSON_text precreate_envelope) precreate_envelope eq_refl eq_refl eq_refl
              (JSON_text transfer_response) transfer_response eq_refl eq_refl eq_refl
              (JSON_text create_envelope) create_envelope eq_refl eq_refl eq_refl eq_refl)
    as [Hrun _].
  unfold run. rewrite Hrun. eexists. split; [reflexivity |]. split; reflexivity.
Defined.

(** ** Timestamps of an entry *)





(** ** Date accessors *)

Lemma new_Date_of_Z (ms : Z) :
  Z.abs ms <= 8640000000000000 -> new_Date (of_Z ms) = Date_of (of_Z ms).
Proof.
  intros H. unfold new_Date, TimeClip, of_Z.
  assert (Hle : Qle_bool (Qabs (inject_Z ms)) (inject_Z 8640000000000000) = true).
  { apply Qle_bool_iff. unfold Qle, Qabs, inject_Z. cbn [Qnum Qden]. lia. }
  rewrite Hle. unfold truncate, inject_Z. cbn [Qnum Qden]. rewrite Z.quot_1_r. reflexivity.
Qed.

(** X15: the [atime], [ctime], [mtime] and [birthtime] accessors give
    the date whose time value is the stored number of milliseconds, for
    every integer within the range of dates (8.64e15 ms either side of the
    epoch); a stored [NaN] gives the invalid date. *)
Theorem accessors_give_the_stored_instant (d : TeraBoxDirent.t) :
  (forall ms, Z.abs ms <= 8640000000000000 ->
              (TeraBoxDirent.atimeMs d = of_Z ms ->
               TeraBoxDirent.atime d = Date_of (of_Z ms))
              /\ (TeraBoxDirent.ctimeMs d = of_Z ms ->
                  TeraBoxDirent.ctime d = Date_of (of_Z ms))
              /\ (TeraBoxDirent.mtimeMs d = of_Z ms ->
                  TeraBoxDirent.mtime d = Date_of (of_Z ms))
              /\ (TeraBoxDirent.birthtimeMs d = of_Z ms ->
                  TeraBoxDirent.birthtime d = Date_of (of_Z ms)))
  /\ (TeraBoxDirent.atimeMs d = NaN -> TeraBoxDirent.atime d = Date_of NaN)
  /\ (TeraBoxDirent.ctimeMs d = NaN -> TeraBoxDirent.ctime d = Date_of NaN)
  /\ (TeraBoxDirent.mtimeMs d = NaN -> TeraBoxDirent.mtime d = Date_of NaN)
  /\ (TeraBoxDirent.birthtimeMs d = NaN -> TeraBoxDirent.birthtime d = Date_of NaN).
Proof.
  unfold TeraBoxDirent.atime, TeraBoxDirent.ctime, TeraBoxDirent.mtime,
    TeraBoxDirent.birthtime.
  split.
  - intros ms Hms. repeat apply conj; intros ->; now apply new_Date_of_Z.
  - repeat apply conj; intros ->; reflexivity.
Qed.

Lemma accessors_give_the_stored_instant_witness :
  TeraBoxDirent.mtime sample_dirent = Date_of (of_Z 1700000001000)
  /\ TeraBoxDirent.atime sample_dirent = Date_of NaN.
Proof.
  destruct (accessors_give_the_stored_instant sample_dirent) as [Hin [Hnan _]].
  split.
  - apply (Hin 1700000001000); [cbn; lia | reflexivity].
  - apply Hnan. reflexivity.
Defined.

(** ** An entry's [move] and [download] *)

(** X16: moving an entry to ["/name"], a name without a slash, sends
    one request with the single record [{path, dest: '', newname: name}],
    [path] being the entry's own path. *)
Theorem entry_move_to_root (d : TeraBoxDirent.t) (name : string) (w : World) (tr : Trace) :
  no_slash name = true ->
  snd (TeraBoxDirent_move d (Str ("/" ++ name)) w tr)
  = (tr ++ [(POST_filemanager_move (TeraBoxDirent.client d)
               [{| MoveEntry.path := TeraBoxDirent.path d;
                   MoveEntry.dest := "";
                   MoveEntry.newname := name |}],
             respond w tr
               (POST_filemanager_move (TeraBoxDirent.client d)
                  [{| MoveEntry.path := TeraBoxDirent.path d;
                      MoveEntry.dest := "";
                      MoveEntry.newname := name |}]))])%list.
Proof.
  intros H. unfold TeraBoxDirent_move. cbn [typeof_is_not typeof].
  change (negb (String.eqb "string" "string")) with false. cbv iota.
  unfold TeraBox_move. cbn [typeof_is_not typeof].
  change (negb (String.eqb "object" "object")) with false. cbv iota.
  cbn [Object_entries]. unfold bind at 1, lift at 1. unfold bind at 1, lift at 1.
  cbn [mapM]. rewrite (move_entry_to_root _ name H).
  apply fetch_json_then_silent. intros data. auto with silent.
Qed.

Lemma entry_move_to_root_witness :
  run (TeraBoxDirent_move sample_dirent (Str "/c.txt")) move_World
  = (Ok true,
     [(POST_filemanager_move sample_client
         [{| MoveEntry.path := "/a/b.txt"; MoveEntry.dest := ""; MoveEntry.newname := "c.txt" |}],
       Some (JSON_text ok_envelope))]).
Proof.
  apply injective_projections; [reflexivity |].
  exact (entry_move_to_root sample_dirent "c.txt" move_World [] eq_refl).
Defined.

Lemma mapM_cons_Ok {A B} (f : A -> Result B) (a : A) (l : list A) (bs : list B) :
  mapM f (a :: l) = Ok bs -> bs <> [].
Proof.
  cbn [mapM]. destruct (f a); [| discriminate]. destruct (mapM f l); [| discriminate].
  intros H. injection H as <-. discriminate.
Qed.

Lemma download_Ok_nonempty (this : TeraBox) (fileIds : Items) (w : World)
    (tr tr' : Trace) (links : list Link.t) :
  TeraBox_download this fileIds w tr = (Ok links, tr') -> links <> [].
Proof.
  unfold TeraBox_download, bind at 1, lift at 1.
  destruct (mapM download_fileId (as_array fileIds)) as [ids |]; [| discriminate].
  unfold bind at 1. destruct (TeraBox_sign this w tr) as [[sg |] tr1]; [| discriminate].
  unfold bind at 1. rewrite fetch_json_eq.
  destruct (respond w tr1 _) as [body |]; [| discriminate].
  destruct (JSON_parse w body) as [data |]; [| discriminate].
  unfold if_errno_0, bind, prop. destruct (is_nullish data); [discriminate |].
  unfold ret at 1. destruct (is_strictly_0 (get data "errno")); [| discriminate].
  cbv zeta.
  destruct (JS.not (get data "dlink")
            || JS.lt (get (get data "dlink") "length") (Num (of_Z 1))) eqn:Hcond;
    [discriminate |].
  destruct (get data "dlink") as [ | | | | | items | ]; try discriminate.
  destruct items as [| i items]; [cbn in Hcond; discriminate |].
  cbn [map_array]. unfold lift. intros H. injection H as H _.
  exact (mapM_cons_Ok _ _ _ _ H).
Qed.

(** X17: [download] never returns an empty array, so an entry's
    [download] always finds the first pair it unwraps: it returns that
    pair's link when the client's [download] of the entry's id returns,
    and throws what the client throws otherwise, with the same requests. *)
Theorem entry_download_returns_the_first_link
    (d : TeraBoxDirent.t) (w : World) (tr tr' : Trace) :
  (forall links,
     TeraBox_download (TeraBoxDirent.client d) (One (Plain (TeraBoxDirent.id d))) w tr
     = (Ok links, tr') ->
     exists first others,
       links = first :: others
       /\ TeraBoxDirent_download d w tr = (Ok (Link.link first), tr'))
  /\ (forall e,
        TeraBox_download (TeraBoxDirent.client d) (One (Plain (TeraBoxDirent.id d))) w tr
        = (Throw e, tr') ->
        TeraBoxDirent_download d w tr = (Throw e, tr')).
Proof.
  split.
  - intros links H. pose proof (download_Ok_nonempty _ _ _ _ _ _ H) as Hne.
    destruct links as [| first others]; [contradiction |].
    exists first, others. split; [reflexivity |].
    unfold TeraBoxDirent_download. rewrite (bind_Ok _ _ _ _ _ _ H). reflexivity.
  - intros e H. unfold TeraBoxDirent_download. now apply bind_Throw.
Qed.

Lemma entry_download_returns_the_first_link_witness :
  run (TeraBoxDirent_download sample_dirent) download_World
  = (Ok (Str "https://d/42"),
     [(POST_home_info sample_client, Some (JSON_text home_envelope));
      (POST_download sample_client [Num (of_Z 42)] (Str "Zm8=") (Num (of_Z 1700000000)),
       Some (JSON_text dlink_envelope))]).
Proof.
  destruct (proj1 (entry_download_returns_the_first_link sample_dirent download_World []
                     [(POST_home_info sample_client, Some (JSON_text home_envelope));
                      (POST_download sample_client [Num (of_Z 42)] (Str "Zm8=")
                         (Num (of_Z 1700000000)),
                       Some (JSON_text dlink_envelope))])
              [{| Link.id := Num (of_Z 42); Link.link := Str "https://d/42" |}] eq_refl)
    as [first [others [Hlinks Hrun]]].
  injection Hlinks as <- _. exact Hrun.
Defined.

(** ** [stream] on a playlist *)

(** X18: with a string path [stream] makes one request, for the quality
    given or ['M3U8_FLV_264_480'] when none is, and returns the answer's
    text unchanged when the text does not start with a brace, is not
    JSON, or is JSON with [errno] zero. *)
Theorem stream_returns_the_playlist
    (this : TeraBox) (filePath : string) (type : value) (w : World) (tr : Trace)
    (body : string) :
  respond w tr (POST_streaming this filePath (default type (Str "M3U8_FLV_264_480")))
  = Some body ->
  startsWith body "{" = false
  \/ JSON_parse w body = None
  \/ (exists json, JSON_parse w body = Some json
                   /\ is_strictly_0 (get json "errno") = true) ->
  TeraBox_stream this (Str filePath) type w tr
  = (Ok body,
     (tr ++ [(POST_streaming this filePath (default type (Str "M3U8_FLV_264_480")),
              Some body)])%list).
Proof.
  intros Hr Hcases. unfold TeraBox_stream, bind at 1, fetch. rewrite Hr.
  destruct Hcases as [Hstart | [Hparse | [json [Hparse H0]]]].
  - rewrite Hstart. reflexivity.
  - destruct (startsWith body "{"); [| reflexivity].
    unfold try_catch, bind, parse. rewrite Hparse. reflexivity.
  - destruct (startsWith body "{"); [| reflexivity].
    unfold try_catch, bind at 1, parse. rewrite Hparse.
    unfold bind, prop. rewrite (is_strictly_0_not_nullish json H0).
    unfold ret at 1. rewrite H0. reflexivity.
Qed.

Lemma stream_returns_the_playlist_witness :
  run (TeraBox_stream sample_client (Str "/a/f.mp4") Undefined) playlist_World
  = (Ok playlist,
     [(POST_streaming sample_client "/a/f.mp4" (Str "M3U8_FLV_264_480"), Some playlist)])
  /\ snd (run (TeraBox_stream sample_client (Str "/a/f.mp4") (Str "M3U8_FLV_264_360"))
            playlist_World)
     = [(POST_streaming sample_client "/a/f.mp4" (Str "M3U8_FLV_264_360"), Some playlist)].
Proof.
  split.
  - exact (stream_returns_the_playlist sample_client "/a/f.mp4" Undefined playlist_World []
             playlist eq_refl (or_introl eq_refl)).
  - exact (f_equal snd
             (stream_returns_the_playlist sample_client "/a/f.mp4" (Str "M3U8_FLV_264_360")
                playlist_World [] playlist eq_refl (or_introl eq_refl))).
Defined.

(** ** The encoder on any string, and back *)

Lemma land_255_is_mod (c : Z) : Z.land 255 c = c mod 256.
Proof.
  rewrite Z.land_comm. change 255 with (Z.ones 8). rewrite Z.land_ones by lia.
  reflexivity.
Qed.

Lemma low_byte_is_byte (c : Z) : is_byte (c mod 256).
Proof. unfold is_byte. apply Z.mod_pos_bound. lia. Qed.

Lemma mask_of_low_byte (m c : Z) :
  Z.land m 255 = m -> Z.land m (c mod 256) = Z.land m c.
Proof.
  intros Hm. rewrite <- land_255_is_mod, Z.land_assoc, Hm. reflexivity.
Qed.

(** The encoder masks every code unit it reads, so what it appends for a
    string is what it appends for the string of the low bytes. *)
Lemma chunks_of_low_bytes_bounded (k : nat) :
  forall e : list Z,
    (List.length e <= k)%nat -> chunks e = chunks (map (fun c => c mod 256) e).
Proof.
  induction k as [| k IH]; intros e Hlen.
  - destruct e; [reflexivity | simpl in Hlen; lia].
  - destruct e as [| a [| r [| o rest]]]; [reflexivity | | |]; cbn [map chunks].
    + rewrite (mask_of_low_byte 255 a eq_refl). reflexivity.
    + rewrite (mask_of_low_byte 255 a eq_refl), (mask_of_low_byte 240 r eq_refl),
        (mask_of_low_byte 15 r eq_refl). reflexivity.
    + rewrite (mask_of_low_byte 255 a eq_refl), (mask_of_low_byte 240 r eq_refl),
        (mask_of_low_byte 15 r eq_refl), (mask_of_low_byte 192 o eq_refl),
        (mask_of_low_byte 63 o eq_refl).
      rewrite (IH rest) by (simpl in Hlen; lia). reflexivity.
Qed.

Lemma encode_of_any (e : list Z) :
  Sign.encode e = RFC4648.encode (map (fun c => c mod 256) e).
Proof.
  rewrite encode_chunks, (chunks_of_low_bytes_bounded (List.length e)) by lia.
  apply (chunks_is_base64_bounded (List.length e)).
  - rewrite length_map. lia.
  - apply Forall_forall. intros c Hc. apply in_map_iff in Hc.
    destruct Hc as [c0 [<- _]]. apply low_byte_is_byte.
Qed.

Lemma padded_length (n : nat) :
  (body_length n + String.length (RFC4648.padding (n mod 3)) = 4 * ((n + 2) / 3))%nat.
Proof.
  unfold body_length.
  pose proof (Nat.div_mod_eq n 3) as Hn.
  pose proof (Nat.mod_upper_bound n 3 ltac:(lia)) as Hr.
  pose proof (Nat.div_mod_eq (n + 2) 3) as Hn2.
  pose proof (Nat.mod_upper_bound (n + 2) 3 ltac:(lia)) as Hr2.
  destruct (n mod 3)%nat as [| [| [| r]]]; cbn [RFC4648.padding String.length]; lia.
Qed.

(** X19: on any string, of bytes or not, the encoder gives the base64
    of the low bytes of its code units (a character above 255 is cut to
    its low byte, not encoded in UTF-8), and the output has four
    characters for every three of the input, rounded up. *)
Theorem encoder_takes_low_bytes (e : list Z) :
  Sign.encode e = RFC4648.encode (map (fun c => c mod 256) e)
  /\ String.length (Sign.encode e) = (4 * ((List.length e + 2) / 3))%nat.
Proof.
  split; [apply encode_of_any |].
  rewrite encode_of_any.
  destruct (base64_shape_bounded (List.length (map (fun c => c mod 256) e))
              (map (fun c => c mod 256) e) ltac:(lia)) as [body [-> [_ Hlen]]].
  rewrite length_append, Hlen, length_map. apply padded_length.
Qed.

Lemma sextet_of_sextet_char (v : Z) :
  0 <= v < 64 ->
  Decode.sextet_of (RFC4648.sextet_char v) = Some v
  /\ Decode.is_pad (RFC4648.sextet_char v) = false.
Proof.
  intros Hv.
  assert (H : (64 <=? v)
              || (match Decode.sextet_of (RFC4648.sextet_char v) with
                  | Some u => u =? v
                  | None => false
                  end
                  && negb (Decode.is_pad (RFC4648.sextet_char v))) = true).
  { apply (for_all_bytes
             (fun v => (64 <=? v)
                       || (match Decode.sextet_of (RFC4648.sextet_char v) with
                           | Some u => u =? v
                           | None => false
                           end
                           && negb (Decode.is_pad (RFC4648.sextet_char v)))));
      [vm_compute; reflexivity | unfold is_byte; lia]. }
  destruct (Z.leb_spec 64 v); [lia |]. cbn [orb] in H.
  apply andb_prop in H. destruct H as [Hs Hp].
  split; [| now apply negb_true_iff in Hp].
  destruct (Decode.sextet_of (RFC4648.sextet_char v)) as [u |]; [| discriminate].
  apply Z.eqb_eq in Hs. now subst.
Qed.

Ltac sextet_bound := unfold is_byte in *; Z.div_mod_to_equations; lia.

Lemma decode_group_24 (a b c : Z) (rest : string) :
  is_byte a -> is_byte b -> is_byte c ->
  Decode.decode (RFC4648.encode_24 a b c ++ rest)
  = match Decode.decode rest with
    | Some more => Some (a :: b :: c :: more)
    | None => None
    end.
Proof.
  intros Ha Hb Hc. rewrite encode_24_groups by assumption.
  unfold char_of. cbn [append Decode.decode]. unfold Decode.group.
  destruct (sextet_of_sextet_char (a / 4) ltac:(sextet_bound)) as [-> _].
  destruct (sextet_of_sextet_char (a mod 4 * 16 + b / 16) ltac:(sextet_bound)) as [-> _].
  destruct (sextet_of_sextet_char (b mod 16 * 4 + c / 64) ltac:(sextet_bound)) as [-> ->].
  destruct (sextet_of_sextet_char (c mod 64) ltac:(sextet_bound)) as [-> ->].
  cbn [andb].
  replace (a / 4 * 4 + (a mod 4 * 16 + b / 16) / 16) with a by sextet_bound.
  replace ((a mod 4 * 16 + b / 16) mod 16 * 16 + (b mod 16 * 4 + c / 64) / 4) with b
    by sextet_bound.
  replace ((b mod 16 * 4 + c / 64) mod 4 * 64 + c mod 64) with c by sextet_bound.
  destruct (Decode.decode rest); reflexivity.
Qed.

Lemma decode_group_16 (a b : Z) :
  is_byte a -> is_byte b -> Decode.decode (RFC4648.encode_16 a b) = Some [a; b].
Proof.
  intros Ha Hb. rewrite encode_16_groups by assumption.
  unfold char_of. cbn [append Decode.decode]. unfold Decode.group.
  destruct (sextet_of_sextet_char (a / 4) ltac:(sextet_bound)) as [-> _].
  destruct (sextet_of_sextet_char (a mod 4 * 16 + b / 16) ltac:(sextet_bound)) as [-> _].
  destruct (sextet_of_sextet_char (b mod 16 * 4) ltac:(sextet_bound)) as [-> ->].
  change (Decode.is_pad "=") with true. cbn [andb].
  replace (a / 4 * 4 + (a mod 4 * 16 + b / 16) / 16) with a by sextet_bound.
  replace ((a mod 4 * 16 + b / 16) mod 16 * 16 + b mod 16 * 4 / 4) with b
    by sextet_bound.
  reflexivity.
Qed.

Lemma decode_group_8 (a : Z) :
  is_byte a -> Decode.decode (RFC4648.encode_8 a) = Some [a].
Proof.
  intros Ha. rewrite encode_8_groups by assumption.
  unfold char_of. cbn [append Decode.decode]. unfold Decode.group.
  destruct (sextet_of_sextet_char (a / 4) ltac:(sextet_bound)) as [-> _].
  destruct (sextet_of_sextet_char (a mod 4 * 16) ltac:(sextet_bound)) as [-> _].
  change (Decode.is_pad "=") with true. cbn [andb].
  replace (a / 4 * 4 + a mod 4 * 16 / 16) with a by sextet_bound.
  reflexivity.
Qed.

Lemma decode_encode_bounded (k : nat) :
  forall e : list Z,
    (List.length e <= k)%nat -> Forall is_byte e ->
    Decode.decode (RFC4648.encode e) = Some e.
Proof.
  induction k as [| k IH]; intros e Hlen Hall.
  - destruct e; [reflexivity | simpl in Hlen; lia].
  - destruct e as [| a [| b [| c rest]]]; [reflexivity | | |].
    + inversion Hall; subst. now apply decode_group_8.
    + inversion Hall as [| ? ? Ha Hall']; subst. inversion Hall'; subst.
      now apply decode_group_16.
    + inversion Hall as [| ? ? Ha Hall']; subst.
      inversion Hall' as [| ? ? Hb Hall'']; subst.
      inversion Hall'' as [| ? ? Hc Hrest]; subst.
      cbn [RFC4648.encode]. rewrite decode_group_24 by assumption.
      rewrite (IH rest) by (simpl in Hlen; lia || assumption). reflexivity.
Qed.

Lemma low_bytes_of_bytes (e : list Z) :
  Forall is_byte e -> map (fun c => c mod 256) e = e.
Proof.
  induction 1 as [| c e Hc _ IH]; [reflexivity |].
  cbn [map]. rewrite IH, Z.mod_small by exact Hc. reflexivity.
Qed.

(** X20: decoding the encoder's output as base64 gives back the low
    bytes of the input, the input itself when it is a string of bytes; so
    two different strings of bytes never get the same signature text. *)
Theorem encoder_round_trip (e : list Z) :
  Decode.decode (Sign.encode e) = Some (map (fun c => c mod 256) e)
  /\ (Forall is_byte e -> Decode.decode (Sign.encode e) = Some e)
  /\ (forall e', Forall is_byte e -> Forall is_byte e' ->
                 Sign.encode e = Sign.encode e' -> e = e').
Proof.
  assert (Hany : forall x, Decode.decode (Sign.encode x) = Some (map (fun c => c mod 256) x)).
  { intros x. rewrite encode_of_any.
    apply (decode_encode_bounded (List.length (map (fun c => c mod 256) x))); [lia |].
    apply Forall_forall. intros c Hc. apply in_map_iff in Hc.
    destruct Hc as [c0 [<- _]]. apply low_byte_is_byte. }
  split; [apply Hany |]. split.
  - intros Hall. rewrite Hany, (low_bytes_of_bytes e Hall). reflexivity.
  - intros e' Hall Hall' Heq.
    pose proof (Hany e) as H1. pose proof (Hany e') as H2.
    rewrite Heq, H2 in H1. injection H1 as H1.
    rewrite (low_bytes_of_bytes e Hall), (low_bytes_of_bytes e' Hall') in H1.
    symmetry. exact H1.
Qed.

Lemma encoder_round_trip_witness :
  Decode.decode (Sign.encode (charCodes "foob")) = Some [102; 111; 111; 98]
  /\ Decode.decode (Sign.encode [358; 111]) = Some [102; 111].
Proof.
  split.
  - apply (proj1 (proj2 (encoder_round_trip (charCodes "foob")))).
    change (charCodes "foob") with [102; 111; 111; 98].
    repeat (apply Forall_cons; [unfold is_byte; lia |]). apply Forall_nil.
  - exact (proj1 (encoder_round_trip [358; 111])).
Defined.

(** ** Answers that are no envelope *)

Lemma fetch_json_rejected {B} (req : Request) (k : value -> M B) (w : World) (tr : Trace) :
  respond w tr req = None ->
  (let* data := fetch_json req in k data) w tr
  = (Throw FetchRejected, (tr ++ [(req, None)])%list).
Proof. intros Hr. apply bind_Throw. rewrite fetch_json_eq, Hr. reflexivity. Qed.

Lemma fetch_json_not_JSON {B} (req : Request) (k : value -> M B) (w : World) (tr : Trace)
    (body : string) :
  respond w tr req = Some body ->
  JSON_parse w body = None ->
  (let* data := fetch_json req in k data) w tr
  = (Throw SyntaxError, (tr ++ [(req, Some body)])%list).
Proof. intros Hr Hp. apply bind_Throw. rewrite fetch_json_eq, Hr, Hp. reflexivity. Qed.

(** X21: nothing is caught on the way: when the request is rejected
    [quota], [list], [delete] and [stream] reject with that, when the
    answer is not JSON [quota], [list] and [delete] reject with the
    parser's error, and when the answer is the JSON [null] they reject
    with the [TypeError] of reading [errno] off it; the one request made
    is not repeated. *)
Theorem rejections_are_passed_on (this : TeraBox) (w : World) (tr : Trace) :
  (respond w tr (POST_quota this) = None ->
   TeraBox_quota this w tr
   = (Throw FetchRejected, (tr ++ [(POST_quota this, None)])%list))
  /\ (forall directory,
        respond w tr (POST_list this (default directory (Str "/"))) = None ->
        TeraBox_list this directory w tr
        = (Throw FetchRejected,
           (tr ++ [(POST_list this (default directory (Str "/")), None)])%list))
  /\ (forall paths,
        respond w tr (POST_filemanager_delete this paths) = None ->
        TeraBox_delete this (Many (map (fun p => Plain (Str p)) paths)) w tr
        = (Throw FetchRejected,
           (tr ++ [(POST_filemanager_delete this paths, None)])%list))
  /\ (forall filePath type,
        respond w tr (POST_streaming this filePath (default type (Str "M3U8_FLV_264_480")))
        = None ->
        TeraBox_stream this (Str filePath) type w tr
        = (Throw FetchRejected,
           (tr ++ [(POST_streaming this filePath (default type (Str "M3U8_FLV_264_480")),
                    None)])%list))
  /\ (forall body,
        JSON_parse w body = None ->
        (respond w tr (POST_quota this) = Some body ->
         TeraBox_quota this w tr
         = (Throw SyntaxError, (tr ++ [(POST_quota this, Some body)])%list))
        /\ (forall directory,
              respond w tr (POST_list this (default directory (Str "/"))) = Some body ->
              TeraBox_list this directory w tr
              = (Throw SyntaxError,
                 (tr ++ [(POST_list this (default directory (Str "/")), Some body)])%list))
        /\ (forall paths,
              respond w tr (POST_filemanager_delete this paths) = Some body ->
              TeraBox_delete this (Many (map (fun p => Plain (Str p)) paths)) w tr
              = (Throw SyntaxError,
                 (tr ++ [(POST_filemanager_delete this paths, Some body)])%list)))
  /\ (forall body,
        JSON_parse w body = Some Null ->
        respond w tr (POST_quota this) = Some body ->
        exists message,
          TeraBox_quota this w tr
          = (Throw (TypeError message), (tr ++ [(POST_quota this, Some body)])%list)).
Proof.
  repeat apply conj.
  - intros Hr. now apply fetch_json_rejected.
  - intros directory Hr. now apply fetch_json_rejected.
  - intros paths Hr. unfold TeraBox_delete. cbn [as_array].
    unfold bind at 1, lift at 1. rewrite mapM_delete_strings.
    now apply fetch_json_rejected.
  - intros filePath type Hr. unfold TeraBox_stream, bind, fetch. rewrite Hr. reflexivity.
  - intros body Hp. repeat apply conj.
    + intros Hr. now apply fetch_json_not_JSON.
    + intros directory Hr. now apply fetch_json_not_JSON.
    + intros paths Hr. unfold TeraBox_delete. cbn [as_array].
      unfold bind at 1, lift at 1. rewrite mapM_delete_strings.
      now apply fetch_json_not_JSON.
  - intros body Hp Hr. eexists. unfold TeraBox_quota.
    rewrite (bind_Ok _ _ _ _ _ _ (fetch_json_answered _ w tr body Null Hr Hp)).
    reflexivity.
Qed.

Lemma rejections_are_passed_on_witness :
  run (TeraBox_quota sample_client) unreachable_World
  = (Throw FetchRejected, [(POST_quota sample_client, None)])
  /\ run (TeraBox_quota sample_client) playlist_World
     = (Throw SyntaxError, [(POST_quota sample_client, Some playlist)]).
Proof.
  split.
  - exact (proj1 (rejections_are_passed_on sample_client unreachable_World []) eq_refl).
  - destruct (rejections_are_passed_on sample_client playlist_World [])
      as [_ [_ [_ [_ [Hsyntax _]]]]].
    exact (proj1 (Hsyntax playlist eq_refl) eq_refl).
Defined.
